(** * Healthcare knowledge graph: extraction and identifier-mapping scripts

    A shallow embedding of the Python scripts that build the node, edge and
    mapping CSV tables, with the properties of their specification proved
    over it.

    Conventions of the embedding.
    - A Python [str] is a Rocq [string]; the character operations
      ([lower], [strip], ordering, [\d]) are modelled on the ASCII range.
    - A decoded JSON value is a [json] tree; JSON numbers are integers.
    - A pandas column read with [dtype=str] holds [cell]s: a string or NaN.
    - A nullable SQL column is an [option]; [None] is NULL.
    - An integer column that pandas holds as float64, because it also
      holds a missing value, stores the nearest float64 of each integer
      ([to_float64]).
    - Tables are lists of rows, in row order. *)

From Stdlib Require Import ZArith Ascii String DecimalString.
From Stdlib Require DecimalPos.
From stdpp Require Import base list strings gmap sorting.

Local Open Scope Z_scope.
#[local] Set Warnings "-register-all".
Local Open Scope string_scope.

(** ** Python and pandas primitives shared by the scripts *)
Module Py.

(** [str.isspace] on one character, ASCII range: TAB..CR, FS..US, space. *)
Definition isspace (c : ascii) : bool :=
  let n := N_of_ascii c in
  (((9 <=? n) && (n <=? 13)) || ((28 <=? n) && (n <=? 32)))%N.

Fixpoint lstrip (s : string) : string :=
  match s with
  | String c s' => if isspace c then lstrip s' else s
  | EmptyString => EmptyString
  end.

Fixpoint rstrip (s : string) : string :=
  match s with
  | EmptyString => EmptyString
  | String c s' =>
      match rstrip s' with
      | EmptyString => if isspace c then EmptyString else String c EmptyString
      | r => String c r
      end
  end.

(** [s.strip()] *)
Definition strip (s : string) : string := rstrip (lstrip s).

Definition lower_char (c : ascii) : ascii :=
  let n := N_of_ascii c in
  if ((65 <=? n) && (n <=? 90))%N then ascii_of_N (n + 32) else c.

(** [s.lower()] *)
Fixpoint lower (s : string) : string :=
  match s with
  | EmptyString => EmptyString
  | String c s' => String (lower_char c) (lower s')
  end.

(** [str(n)] for an [int] *)
Definition str_of_Z (z : Z) : string := NilZero.string_of_int (Z.to_int z).

(** [sep.join(l)] *)
Fixpoint join (sep : string) (l : list string) : string :=
  match l with
  | [] => ""
  | [x] => x
  | x :: l' => x +:+ sep +:+ join sep l'
  end.

(** [sorted(l)] on strings: ascending in the lexicographic order of the
    characters. *)
Definition sorted (l : list string) : list string := merge_sort String.le l.

(** [x in {a, b, ...}] for strings *)
Definition str_in (x : string) (l : list string) : bool :=
  existsb (String.eqb x) l.

(** [float(n)] for an [int]: the value of the nearest float64, ties to
    the even mantissa. An integer of at most 53 bits is kept; above, the
    low bits are rounded away. (The result is again an integer; integers
    of 64 bits are far from the overflow of float64.) *)
Definition to_float64 (z : Z) : Z :=
  let a := Z.abs z in
  let n := (Z.log2 a + 1)%Z in
  if (n <=? 53)%Z then z
  else
    let sh := (n - 53)%Z in
    let q := Z.shiftr a sh in
    let r := (a - Z.shiftl q sh)%Z in
    let half := Z.shiftl 1 (sh - 1)%Z in
    let q' := if (half <? r)%Z || ((r =? half)%Z && Z.odd q)
              then (q + 1)%Z else q in
    (Z.sgn z * Z.shiftl q' sh)%Z.

(** A cell of a pandas column read with [dtype=str]. *)
Inductive cell : Type :=
  | CStr (s : string)
  | CNaN.

#[global] Instance cell_eq_dec : EqDecision cell.
Proof. solve_decision. Defined.

(** [col.astype(str)]: NaN becomes the string "nan" (pandas before 3.0,
    where a [dtype=str] column is an object column). *)
Definition astype_str (c : cell) : string :=
  match c with
  | CStr s => s
  | CNaN => "nan"
  end.

(** [col.str.strip()]: NaN stays NaN. *)
Definition str_strip (c : cell) : cell :=
  match c with
  | CStr s => CStr (strip s)
  | CNaN => CNaN
  end.

Section Frames.
Context {A : Type} `{EqDecision A}.

(** [df.drop_duplicates()]: the first occurrence of every row is kept,
    in row order. *)
Fixpoint drop_duplicates (l : list A) : list A :=
  match l with
  | [] => []
  | x :: l' => x :: filter (λ y, y ≠ x) (drop_duplicates l')
  end.

(** [df.drop_duplicates(subset=...)], the subset given as the key [k] of
    a row. *)
Fixpoint drop_duplicates_on {K : Type} `{EqDecision K} (k : A → K)
    (l : list A) : list A :=
  match l with
  | [] => []
  | x :: l' => x :: filter (λ y, k y ≠ k x) (drop_duplicates_on k l')
  end.
End Frames.

End Py.

(** ** hetionet_extract_to_csv.py *)
Module Hetionet.
Import Py.

(** A decoded JSON document. An object is the list of its members in
    document order, with pairwise distinct keys. *)
Inductive json : Type :=
  | JNull
  | JBool (b : bool)
  | JInt (z : Z)
  | JStr (s : string)
  | JArr (l : list json)
  | JObj (kv : list (string * json)).

(** Truth value of a decoded value ([if not d]). *)
Definition truthy (d : json) : bool :=
  match d with
  | JNull => false
  | JBool b => b
  | JInt z => negb (z =? 0)%Z
  | JStr s => negb (String.eqb s "")
  | JArr l => match l with [] => false | _ => true end
  | JObj kv => match kv with [] => false | _ => true end
  end.

(** [d[k]] with [k in d] folded in: [None] when the key is absent. *)
Fixpoint dict_get (k : string) (kv : list (string * json)) : option json :=
  match kv with
  | [] => None
  | (k', v) :: kv' => if String.eqb k k' then Some v else dict_get k kv'
  end.

Definition hex_digit (n : N) : ascii :=
  if (n <? 10)%N then ascii_of_N (48 + n) else ascii_of_N (87 + n).

Definition hex2 (c : ascii) : string :=
  let n := N_of_ascii c in
  String (hex_digit (n / 16)) (String (hex_digit (n mod 16)) "").

Definition dquote : ascii := ascii_of_N 34.

Fixpoint contains_char (c : ascii) (s : string) : bool :=
  match s with
  | EmptyString => false
  | String c' s' => if Ascii.eqb c c' then true else contains_char c s'
  end.

Fixpoint repr_chars (q : ascii) (s : string) : string :=
  match s with
  | EmptyString => ""
  | String c s' =>
      let n := N_of_ascii c in
      (if Ascii.eqb c q || (n =? 92)%N then String "\" (String c "")
       else if (n =? 9)%N then "\t"
       else if (n =? 10)%N then "\n"
       else if (n =? 13)%N then "\r"
       else if ((n <? 32) || (n =? 127))%N then "\x" +:+ hex2 c
       else String c "") +:+ repr_chars q s'
  end.

(** [repr(s)] of a [str]: single quotes unless the text has a single quote
    and no double quote. *)
Definition repr_str (s : string) : string :=
  let q := if contains_char "'" s && negb (contains_char dquote s)
           then dquote else "'"%char in
  String q (repr_chars q s) +:+ String q "".

(** [repr(v)] of a decoded value. *)
Fixpoint repr (d : json) : string :=
  match d with
  | JNull => "None"
  | JBool b => if b then "True" else "False"
  | JInt z => str_of_Z z
  | JStr s => repr_str s
  | JArr l => "[" +:+ join ", " (map repr l) +:+ "]"
  | JObj kv =>
      "{" +:+ join ", " (map (λ p, repr_str (fst p) +:+ ": " +:+ repr (snd p)) kv)
          +:+ "}"
  end.

(** [str(v)]: the text itself for a [str], [repr(v)] otherwise. *)
Definition str (d : json) : string :=
  match d with
  | JStr s => s
  | _ => repr d
  end.

Fixpoint dumps_chars (s : string) : string :=
  match s with
  | EmptyString => ""
  | String c s' =>
      let n := N_of_ascii c in
      (if (n =? 34)%N then String "\" (String dquote "")
       else if (n =? 92)%N then "\\"
       else if (n =? 8)%N then "\b"
       else if (n =? 9)%N then "\t"
       else if (n =? 10)%N then "\n"
       else if (n =? 12)%N then "\f"
       else if (n =? 13)%N then "\r"
       else if (n <? 32)%N then "\u00" +:+ hex2 c
       else String c "") +:+ dumps_chars s'
  end.

Definition dumps_str (s : string) : string :=
  String dquote (dumps_chars s) +:+ String dquote "".

(** [json.dumps(d, ensure_ascii=False, separators=(",", ":"))] *)
Fixpoint json_dumps (d : json) : string :=
  match d with
  | JNull => "null"
  | JBool b => if b then "true" else "false"
  | JInt z => str_of_Z z
  | JStr s => dumps_str s
  | JArr l => "[" +:+ join "," (map json_dumps l) +:+ "]"
  | JObj kv =>
      "{" +:+ join "," (map (λ p, dumps_str (fst p) +:+ ":" +:+ json_dumps (snd p)) kv)
          +:+ "}"
  end.

(** [len(v)]: [None] where Python raises [TypeError]. *)
Definition len (d : json) : option nat :=
  match d with
  | JStr s => Some (String.length s)
  | JArr l => Some (length l)
  | JObj kv => Some (length kv)
  | _ => None
  end.

(** [evidence_string(d)] *)
Definition evidence_string (d : json) : string :=
  if negb (truthy d) then ""
  else
    match d with
    | JObj kv =>
        match dict_get "source" kv with
        | Some (JStr s) => s
        | _ =>
            match dict_get "sources" kv with
            | Some (JArr l) => join ";" (sorted (map str l))
            | Some s => str s
            | None =>
                match dict_get "pmids" kv with
                | Some p =>
                    match len p with
                    | Some n => "pmids:" +:+ str_of_Z (Z.of_nat n)
                    | None => "pmids"
                    end
                | None => json_dumps d
                end
            end
        end
    | _ => str d
    end.

(** A raw edge of the document: [kind] and [direction] are [None] when the
    key is missing or null, [data] likewise; an endpoint is the pair (kind,
    identifier) and the identifier is a string or a number. *)
Record edge : Type := {
  kind : option string;
  direction : option string;
  source_id : string * json;
  target_id : string * json;
  data : option json
}.

(** [e.get(key) or default] on a string-valued key. *)
Definition get_or (v : option string) (default : string) : string :=
  match v with
  | Some s => if String.eqb s "" then default else s
  | None => default
  end.

(** Rows of the four edge tables, with the column names of the script. *)
Record drug_target_row : Type :=
  { dt_drugbank_id : string; dt_entrez_id : string; dt_evidence : string }.
Record drug_treats_row : Type :=
  { tr_drugbank_id : string; tr_doid : string; tr_evidence : string }.
Record gene_disease_row : Type :=
  { gd_entrez_id : string; gd_doid : string; gd_evidence : string }.
Record drug_se_row : Type :=
  { se_drugbank_id : string; se_umls_cui : string; se_evidence : string }.

#[global] Instance drug_target_row_eq_dec : EqDecision drug_target_row.
Proof. solve_decision. Defined.
#[global] Instance drug_treats_row_eq_dec : EqDecision drug_treats_row.
Proof. solve_decision. Defined.
#[global] Instance gene_disease_row_eq_dec : EqDecision gene_disease_row.
Proof. solve_decision. Defined.
#[global] Instance drug_se_row_eq_dec : EqDecision drug_se_row.
Proof. solve_decision. Defined.

(** The four accumulators of the edge loop. *)
Record tables : Type := {
  E_DRUG_TARGETS : list drug_target_row;
  E_DRUG_TREATS : list drug_treats_row;
  E_GENE_DISEASE : list gene_disease_row;
  E_DRUG_SE : list drug_se_row
}.

Definition no_edges : tables :=
  {| E_DRUG_TARGETS := []; E_DRUG_TREATS := []; E_GENE_DISEASE := [];
     E_DRUG_SE := [] |}.

Definition append_drug_target (r : drug_target_row) (T : tables) : tables :=
  {| E_DRUG_TARGETS := E_DRUG_TARGETS T ++ [r];
     E_DRUG_TREATS := E_DRUG_TREATS T;
     E_GENE_DISEASE := E_GENE_DISEASE T;
     E_DRUG_SE := E_DRUG_SE T |}.

Definition append_drug_treats (r : drug_treats_row) (T : tables) : tables :=
  {| E_DRUG_TARGETS := E_DRUG_TARGETS T;
     E_DRUG_TREATS := E_DRUG_TREATS T ++ [r];
     E_GENE_DISEASE := E_GENE_DISEASE T;
     E_DRUG_SE := E_DRUG_SE T |}.

Definition append_gene_disease (r : gene_disease_row) (T : tables) : tables :=
  {| E_DRUG_TARGETS := E_DRUG_TARGETS T;
     E_DRUG_TREATS := E_DRUG_TREATS T;
     E_GENE_DISEASE := E_GENE_DISEASE T ++ [r];
     E_DRUG_SE := E_DRUG_SE T |}.

Definition append_drug_se (r : drug_se_row) (T : tables) : tables :=
  {| E_DRUG_TARGETS := E_DRUG_TARGETS T;
     E_DRUG_TREATS := E_DRUG_TREATS T;
     E_GENE_DISEASE := E_GENE_DISEASE T;
     E_DRUG_SE := E_DRUG_SE T ++ [r] |}.

(** The normalised relation kind and direction tag of an edge. *)
Definition ekind (e : edge) : string := strip (lower (get_or (kind e) "")).
Definition direc (e : edge) : string :=
  strip (lower (get_or (direction e) "both")).

(** [evidence_string(e.get("data"))] *)
Definition ev (e : edge) : string :=
  evidence_string (match data e with Some d => d | None => JNull end).

(** One iteration of the loop [for e in edges]. *)
Definition process_edge (e : edge) (T : tables) : tables :=
  let '(src_kind, src_id) := source_id e in
  let '(tgt_kind, tgt_id) := target_id e in
  if String.eqb (ekind e) "binds" && str_in (direc e) ["forward"; "both"] then
    if String.eqb src_kind "Compound" && String.eqb tgt_kind "Gene" then
      append_drug_target
        {| dt_drugbank_id := str src_id; dt_entrez_id := str tgt_id;
           dt_evidence := ev e |} T
    else if String.eqb (direc e) "both" && String.eqb src_kind "Gene"
            && String.eqb tgt_kind "Compound" then
      append_drug_target
        {| dt_drugbank_id := str tgt_id; dt_entrez_id := str src_id;
           dt_evidence := ev e |} T
    else T
  else if String.eqb (ekind e) "treats"
          && str_in (direc e) ["forward"; "both"] then
    if String.eqb src_kind "Compound" && String.eqb tgt_kind "Disease" then
      append_drug_treats
        {| tr_drugbank_id := str src_id; tr_doid := str tgt_id;
           tr_evidence := ev e |} T
    else if String.eqb (direc e) "both" && String.eqb src_kind "Disease"
            && String.eqb tgt_kind "Compound" then
      append_drug_treats
        {| tr_drugbank_id := str tgt_id; tr_doid := str src_id;
           tr_evidence := ev e |} T
    else T
  else if String.eqb (ekind e) "associates"
          && str_in (direc e) ["both"; "forward"] then
    if String.eqb src_kind "Gene" && String.eqb tgt_kind "Disease" then
      append_gene_disease
        {| gd_entrez_id := str src_id; gd_doid := str tgt_id;
           gd_evidence := ev e |} T
    else if String.eqb src_kind "Disease" && String.eqb tgt_kind "Gene" then
      append_gene_disease
        {| gd_entrez_id := str tgt_id; gd_doid := str src_id;
           gd_evidence := ev e |} T
    else T
  else if String.eqb (ekind e) "causes"
          && str_in (direc e) ["forward"; "both"] then
    if String.eqb src_kind "Compound" && String.eqb tgt_kind "Side Effect" then
      append_drug_se
        {| se_drugbank_id := str src_id; se_umls_cui := str tgt_id;
           se_evidence := ev e |} T
    else if String.eqb (direc e) "both" && String.eqb src_kind "Side Effect"
            && String.eqb tgt_kind "Compound" then
      append_drug_se
        {| se_drugbank_id := str tgt_id; se_umls_cui := str src_id;
           se_evidence := ev e |} T
    else T
  else T.

(** The whole edge loop, from empty accumulators. *)
Definition extract_edges (edges : list edge) : tables :=
  fold_left (λ T e, process_edge e T) edges no_edges.

(** The four edge tables as written: [pd.DataFrame(E).drop_duplicates()]. *)
Definition written_edges (edges : list edge) : tables :=
  let T := extract_edges edges in
  {| E_DRUG_TARGETS := drop_duplicates (E_DRUG_TARGETS T);
     E_DRUG_TREATS := drop_duplicates (E_DRUG_TREATS T);
     E_GENE_DISEASE := drop_duplicates (E_GENE_DISEASE T);
     E_DRUG_SE := drop_duplicates (E_DRUG_SE T) |}.

(** The same raw edge with its two endpoints listed in the other order. *)
Definition swap_endpoints (e : edge) : edge :=
  {| kind := kind e; direction := direction e;
     source_id := target_id e; target_id := source_id e; data := data e |}.

(** Vocabulary of the statements below, and sample inputs. *)

(** The three relations with a fixed direction, Compound→object. *)
Inductive asymmetric : Type := Binds | Treats | Causes.

Definition relation_name (r : asymmetric) : string :=
  match r with Binds => "binds" | Treats => "treats" | Causes => "causes" end.

(** The object kind of the canonical pair (Compound, object kind). *)
Definition object_kind (r : asymmetric) : string :=
  match r with
  | Binds => "Gene"
  | Treats => "Disease"
  | Causes => "Side Effect"
  end.

(** The canonical edge (Compound id, object id, evidence) appended to the
    table of its relation. *)
Definition append_canonical (r : asymmetric) (subject object evidence : string)
    (T : tables) : tables :=
  match r with
  | Binds =>
      append_drug_target
        {| dt_drugbank_id := subject; dt_entrez_id := object;
           dt_evidence := evidence |} T
  | Treats =>
      append_drug_treats
        {| tr_drugbank_id := subject; tr_doid := object;
           tr_evidence := evidence |} T
  | Causes =>
      append_drug_se
        {| se_drugbank_id := subject; se_umls_cui := object;
           se_evidence := evidence |} T
  end.

(** The "source" test of the first branch: present and a string. *)
Definition has_source_string (kv : list (string * json)) : Prop :=
  ∃ s, dict_get "source" kv = Some (JStr s).

Definition gene_disease_edge : edge :=
  {| kind := Some "associates"; direction := Some "both";
     source_id := ("Gene", JInt 7157);
     target_id := ("Disease", JStr "DOID:1612");
     data := Some (JObj [("sources", JArr [JStr "b"; JStr "a"])]) |}.

Definition binds_reverse_edge : edge :=
  {| kind := Some "binds"; direction := Some "reverse";
     source_id := ("Compound", JStr "DB00001");
     target_id := ("Gene", JInt 7157);
     data := None |}.

(** The record of C2: "binds", no direction tag, endpoints listed as
    Gene then Compound. *)
Definition binds_untagged_swapped_edge : edge :=
  {| kind := Some "binds"; direction := None;
     source_id := ("Gene", JInt 7157);
     target_id := ("Compound", JStr "DB00001");
     data := None |}.

(** Equality of decoded values, as a row comparison needs it. *)
Fixpoint json_eqb (a b : json) : bool :=
  match a, b with
  | JNull, JNull => true
  | JBool x, JBool y => bool_decide (x = y)
  | JInt x, JInt y => bool_decide (x = y)
  | JStr x, JStr y => bool_decide (x = y)
  | JArr l, JArr l' =>
      (fix go (l l' : list json) : bool :=
         match l, l' with
         | [], [] => true
         | x :: l, y :: l' => json_eqb x y && go l l'
         | _, _ => false
         end) l l'
  | JObj kv, JObj kv' =>
      (fix go (l l' : list (string * json)) : bool :=
         match l, l' with
         | [], [] => true
         | (k, x) :: l, (k', y) :: l' =>
             bool_decide (k = k') && json_eqb x y && go l l'
         | _, _ => false
         end) kv kv'
  | _, _ => false
  end.

Fixpoint json_eqb_eq (a b : json) {struct a} : json_eqb a b = true ↔ a = b.
Proof.
  destruct a, b; simpl;
    try (split; [discriminate | discriminate]); try tauto.
  - rewrite bool_decide_eq_true. split; congruence.
  - rewrite bool_decide_eq_true. split; congruence.
  - rewrite bool_decide_eq_true. split; congruence.
  - revert l0. induction l as [|x l IH]; intros [|y l'];
      try (split; [discriminate | discriminate]); [tauto|].
    rewrite andb_true_iff, (json_eqb_eq x y), (IH l'). split.
    + intros [-> [= ->]]. done.
    + intros [= -> ->]. done.
  - revert kv0. induction kv as [|[k x] l IH]; intros [|[k' y] l'];
      try (split; [discriminate | discriminate]); [tauto|].
    rewrite !andb_true_iff, bool_decide_eq_true, (json_eqb_eq x y), (IH l').
    split.
    + intros [[-> ->] [= ->]]. done.
    + intros [= -> -> ->]. done.
Qed.

#[global] Instance json_eq_dec : EqDecision json.
Proof.
  intros a b. destruct (json_eqb a b) eqn:H.
  - left. by apply json_eqb_eq.
  - right. intros Hab. apply json_eqb_eq in Hab. congruence.
Defined.

(** A node of the document; [n_name] is [None] when the key "name" is
    missing. *)
Record node : Type := {
  n_kind : string;
  n_identifier : json;
  n_name : option json
}.

Definition KEEP_KINDS : list string :=
  ["Compound"; "Gene"; "Disease"; "Side Effect"].

(** The four accumulators of the node loop; a row is (identifier, name). *)
Record node_tables : Type := {
  compound_rows : list (string * json);
  gene_rows : list (string * json);
  disease_rows : list (string * json);
  se_rows : list (string * json)
}.

Definition no_nodes : node_tables :=
  {| compound_rows := []; gene_rows := []; disease_rows := [];
     se_rows := [] |}.

(** One iteration of the loop [for n in nodes]. *)
Definition process_node (n : node) (N : node_tables) : node_tables :=
  let k := n_kind n in
  if negb (str_in k KEEP_KINDS) then N
  else
    let ident := n_identifier n in
    let name := match n_name n with Some v => v | None => JStr "" end in
    if String.eqb k "Compound" then
      {| compound_rows := compound_rows N ++ [(str ident, name)];
         gene_rows := gene_rows N; disease_rows := disease_rows N;
         se_rows := se_rows N |}
    else if String.eqb k "Gene" then
      {| compound_rows := compound_rows N;
         gene_rows := gene_rows N ++ [(str ident, name)];
         disease_rows := disease_rows N; se_rows := se_rows N |}
    else if String.eqb k "Disease" then
      {| compound_rows := compound_rows N; gene_rows := gene_rows N;
         disease_rows := disease_rows N ++ [(str ident, name)];
         se_rows := se_rows N |}
    else if String.eqb k "Side Effect" then
      {| compound_rows := compound_rows N; gene_rows := gene_rows N;
         disease_rows := disease_rows N;
         se_rows := se_rows N ++ [(str ident, name)] |}
    else N.

Definition extract_nodes (nodes : list node) : node_tables :=
  fold_left (λ N n, process_node n N) nodes no_nodes.

(** The four node tables as written. *)
Definition written_nodes (nodes : list node) : node_tables :=
  let N := extract_nodes nodes in
  {| compound_rows := drop_duplicates (compound_rows N);
     gene_rows := drop_duplicates (gene_rows N);
     disease_rows := drop_duplicates (disease_rows N);
     se_rows := drop_duplicates (se_rows N) |}.

(** The rows the nodes of kind [k] give, in document order. *)
Definition rows_of_kind (k : string) (nodes : list node)
    : list (string * json) :=
  map (λ n, (str (n_identifier n),
             match n_name n with Some v => v | None => JStr "" end))
      (filter (λ n, n_kind n = k) nodes).

(** The table of an asymmetric relation as (subject, object, evidence)
    triples. *)
Definition canonical_rows (r : asymmetric) (T : tables)
    : list (string * string * string) :=
  match r with
  | Binds =>
      map (λ x, (dt_drugbank_id x, dt_entrez_id x, dt_evidence x))
          (E_DRUG_TARGETS T)
  | Treats =>
      map (λ x, (tr_drugbank_id x, tr_doid x, tr_evidence x))
          (E_DRUG_TREATS T)
  | Causes =>
      map (λ x, (se_drugbank_id x, se_umls_cui x, se_evidence x))
          (E_DRUG_SE T)
  end.

(** The number of rows in the four edge accumulators. *)
Definition total_rows (T : tables) : nat :=
  (length (E_DRUG_TARGETS T) + length (E_DRUG_TREATS T)
   + length (E_GENE_DISEASE T) + length (E_DRUG_SE T))%nat.

End Hetionet.

(** ** extract_chembl_sqlite_cli.py *)
Module Chembl.
Import Py.

(** Rows of the ChEMBL tables the script reads; a column a release does not
    have reads as NULL and is never used by the join chosen for it. *)
Record md_row : Type := {
  md_molregno : option Z;
  md_chembl_id : option string;
  md_pref_name : option string;
  md_max_phase : option Z
}.
Record dm_row : Type := {
  dm_molregno : option Z;
  dm_molecule_chembl_id : option string;
  dm_tid : option Z;
  dm_target_chembl_id : option string;
  dm_mechanism_of_action : option string;
  dm_action_type : option string
}.
Record td_row : Type := {
  td_tid : option Z;
  td_chembl_id : option string;
  td_target_chembl_id : option string;
  td_pref_name : option string
}.
Record tc_row : Type := { tc_tid : option Z; tc_component_id : option Z }.
Record cs_row : Type := { cs_component_id : option Z; cs_accession : option string }.
Record ms_row : Type := { ms_molregno : option Z; ms_synonyms : option string }.

(** The database: the column names the three introspected tables have, the
    rows of every table, and [molecule_synonyms] when that table exists. *)
Record database : Type := {
  td_cols : gset string;
  dm_cols : gset string;
  md_cols : gset string;
  molecule_dictionary : list md_row;
  drug_mechanism : list dm_row;
  target_dictionary : list td_row;
  target_components : list tc_row;
  component_sequences : list cs_row;
  molecule_synonyms : option (list ms_row)
}.

(** Command-line arguments. *)
Inductive phase_arg : Type := PhaseAll | Phase4 | Phase1to4.
Record args : Type := { phase : phase_arg; fill_synonyms : bool }.

(** SQL [a = b] as a join or filter condition: true only on equal non-NULL
    values. *)
Definition sql_eq {A : Type} `{EqDecision A} (a b : option A) : bool :=
  match a, b with
  | Some x, Some y => bool_decide (x = y)
  | _, _ => false
  end.

(** SQL [COALESCE(...)] *)
Fixpoint coalesce (l : list (option string)) : option string :=
  match l with
  | [] => None
  | Some v :: _ => Some v
  | None :: l' => coalesce l'
  end.

(** The join predicates the schema introspection can choose. *)
Inductive dm_td_pred : Type := TdTid | TdChemblId | TdTargetChemblId.
Inductive dm_md_pred : Type := MdMolregno | MdChemblId.

Definition dm_td_join (db : database) : option dm_td_pred :=
  if bool_decide ("tid" ∈ dm_cols db) && bool_decide ("tid" ∈ td_cols db)
  then Some TdTid
  else if bool_decide ("target_chembl_id" ∈ dm_cols db)
          && (bool_decide ("chembl_id" ∈ td_cols db)
              || bool_decide ("target_chembl_id" ∈ td_cols db))
  then Some (if bool_decide ("chembl_id" ∈ td_cols db)
             then TdChemblId else TdTargetChemblId)
  else None.

Definition dm_md_join (db : database) : option dm_md_pred :=
  if bool_decide ("molregno" ∈ dm_cols db)
     && bool_decide ("molregno" ∈ md_cols db)
  then Some MdMolregno
  else if bool_decide ("molecule_chembl_id" ∈ dm_cols db)
          && bool_decide ("chembl_id" ∈ md_cols db)
  then Some MdChemblId
  else None.

Definition on_dm_td (p : dm_td_pred) (td : td_row) (dm : dm_row) : bool :=
  match p with
  | TdTid => sql_eq (td_tid td) (dm_tid dm)
  | TdChemblId => sql_eq (td_chembl_id td) (dm_target_chembl_id dm)
  | TdTargetChemblId => sql_eq (td_target_chembl_id td) (dm_target_chembl_id dm)
  end.

Definition on_dm_md (p : dm_md_pred) (md : md_row) (dm : dm_row) : bool :=
  match p with
  | MdMolregno => sql_eq (md_molregno md) (dm_molregno dm)
  | MdChemblId => sql_eq (md_chembl_id md) (dm_molecule_chembl_id dm)
  end.

(** SQL [MIN] of two text values; NULL is skipped, text is compared
    character by character. *)
Definition sql_min2 (a b : option string) : option string :=
  match a, b with
  | None, _ => b
  | _, None => a
  | Some x, Some y => Some (if String.leb x y then x else y)
  end.

(** The aggregate [MIN(...)] over the rows of one group. *)
Definition sql_min (l : list (option string)) : option string :=
  foldr sql_min2 None l.

(** [q_syn]: one row (molregno, MIN(synonyms)) per molregno of
    [molecule_synonyms]. *)
Definition q_syn (ms : list ms_row) : list (option Z * option string) :=
  map (λ k, (k, sql_min (map ms_synonyms
                           (filter (λ r, ms_molregno r = k) ms))))
      (drop_duplicates (map ms_molregno ms)).

Definition not_null {A : Type} (v : option A) : bool :=
  match v with Some _ => true | None => false end.

(** [pd.read_sql(q_syn, con).to_sql("_tmp_syn", con, ...)]: the rows of
    [q_syn] as they come back from the data frame. A molregno column that
    holds a NULL is read as float64, so every key is replaced by the
    nearest float and written as a REAL (NULL stays NULL); a column
    without NULL is int64 and is written back unchanged. molregno is a
    64-bit integer, as SQLite stores it. *)
Definition read_sql_to_sql (rows : list (option Z * option string))
    : list (option Z * option string) :=
  if forallb (λ r, not_null (fst r)) rows then rows
  else map (λ r, (option_map to_float64 (fst r), snd r)) rows.

(** The helper table [_tmp_syn] when the synonym fill is active, i.e. the
    state of [syn_clause] and [name_expr] after the [if]. *)
Definition tmp_syn (a : args) (db : database)
    : option (list (option Z * option string)) :=
  if fill_synonyms a then
    match molecule_synonyms db with
    | Some ms => Some (read_sql_to_sql (q_syn ms))
    | None => None
    end
  else None.

(** [LEFT JOIN _tmp_syn s ON s.molregno = md.molregno]: the value of
    [s.syn] on every joined row of [md]; one NULL when no row matches.
    SQLite compares a REAL key with an INTEGER molregno by value. *)
Definition left_join_syn (tmp : list (option Z * option string)) (md : md_row)
    : list (option string) :=
  match filter (λ s, sql_eq (fst s) (md_molregno md) = true) tmp with
  | [] => [None]
  | ss => map snd ss
  end.

(** [name_expr] evaluated on one joined row. *)
Definition name_expr (joined : bool) (md : md_row) (syn : option string)
    : option string :=
  if joined then coalesce [md_pref_name md; syn; md_chembl_id md]
  else coalesce [md_pref_name md; md_chembl_id md].

(** [where_phase] *)
Definition where_phase (p : phase_arg) (md : md_row) : bool :=
  match p with
  | PhaseAll => true
  | Phase4 => sql_eq (md_max_phase md) (Some 4)
  | Phase1to4 =>
      match md_max_phase md with
      | Some v => ((1 <=? v) && (v <=? 4))%Z
      | None => false
      end
  end.

(** The [FROM] clause of [q_drugs] on one row of [md]: the values of
    [s.syn] it is joined with when [syn_clause] is the left join, and the
    row alone when [syn_clause] is empty. *)
Definition joined_syn (a : args) (db : database) (md : md_row)
    : list (option string) :=
  match tmp_syn a db with
  | Some tmp => left_join_syn tmp md
  | None => [None]
  end.

(** [q_drugs]: rows (chembl_id, name). *)
Definition q_drugs (a : args) (db : database)
    : list (option string * option string) :=
  flat_map
    (λ md,
       flat_map
         (λ syn,
            if not_null (md_chembl_id md) && where_phase (phase a) md
            then [(md_chembl_id md,
                   name_expr (not_null (tmp_syn a db)) md syn)]
            else [])
         (joined_syn a db md))
    (molecule_dictionary db).

(** The drug node table as written. *)
Definition drugs (a : args) (db : database)
    : list (option string * option string) :=
  drop_duplicates (q_drugs a db).

(** A row of the edge table: chembl_id, uniprot, mechanism, action_type. *)
Record edge_row : Type := {
  chembl_id : option string;
  uniprot : option string;
  mechanism : option string;
  action_type : option string
}.

#[global] Instance edge_row_eq_dec : EqDecision edge_row.
Proof. solve_decision. Defined.

(** [q_edges] under the chosen join predicates; [SELECT DISTINCT] keeps one
    copy of every row. *)
Definition q_edges (a : args) (db : database) (pmd : dm_md_pred)
    (ptd : dm_td_pred) : list edge_row :=
  drop_duplicates
    (flat_map (λ dm,
     flat_map (λ md,
       if on_dm_md pmd md dm then
     flat_map (λ td,
       if on_dm_td ptd td dm then
     flat_map (λ tc,
       if sql_eq (tc_tid tc) (td_tid td) then
     flat_map (λ cs,
       if sql_eq (cs_component_id cs) (tc_component_id tc)
          && not_null (md_chembl_id md) && not_null (cs_accession cs)
          && where_phase (phase a) md
       then [{| chembl_id := md_chembl_id md; uniprot := cs_accession cs;
                mechanism := dm_mechanism_of_action dm;
                action_type := dm_action_type dm |}]
       else [])
       (component_sequences db) else [])
       (target_components db) else [])
       (target_dictionary db) else [])
       (molecule_dictionary db))
       (drug_mechanism db)).

(** The query of step 3: [SELECT DISTINCT cs.accession, td.pref_name]. *)
Definition q_target_names (db : database)
    : list (option string * option string) :=
  drop_duplicates
    (flat_map (λ td,
     flat_map (λ tc,
       if sql_eq (tc_tid tc) (td_tid td) then
     flat_map (λ cs,
       if sql_eq (cs_component_id cs) (tc_component_id tc)
       then [(cs_accession cs, td_pref_name td)] else [])
       (component_sequences db) else [])
       (target_components db))
       (target_dictionary db)).

(** [left.merge(right, on="uniprot", how="left")] on a one-column left
    frame: every left key with each right row of that key, or with a
    missing name when there is none. *)
Definition merge_left (left : list (option string))
    (right : list (option string * option string))
    : list (option string * option string) :=
  flat_map
    (λ u, match filter (λ r, fst r = u) right with
          | [] => [(u, None)]
          | rs => rs
          end)
    left.

(** [.fillna({"target_name": ""})] *)
Definition fillna_target_name (r : option string * option string)
    : option string * string :=
  (fst r, match snd r with Some n => n | None => "" end).

(** The target node table as written. *)
Definition targets (db : database) (edges : list edge_row)
    : list (option string * string) :=
  map fillna_target_name
      (merge_left (drop_duplicates (map uniprot edges)) (q_target_names db)).

(** The three tables [main] writes; [None] is the [RuntimeError] of the
    schema introspection. *)
Record outputs : Type := {
  out_drugs : list (option string * option string);
  out_edges : list edge_row;
  out_targets : list (option string * string)
}.


Definition main (a : args) (db : database) : option outputs :=
  match dm_td_join db with
  | None => None
  | Some ptd =>
      match dm_md_join db with
      | None => None
      | Some pmd =>
          let edges := drop_duplicates (q_edges a db pmd ptd) in
          Some {| out_drugs := drugs a db;
                  out_edges := edges;
                  out_targets := targets db edges |}
      end
  end.

(** Vocabulary of the statements below, and sample inputs. *)

(** The value [q_syn] computes for the group of key [k]. *)
Definition group_min (ms : list ms_row) (k : option Z) : option string :=
  sql_min (map ms_synonyms (filter (λ r, ms_molregno r = k) ms)).

(** The synonym candidate of a molecule: the minimum over the synonym rows
    of its molregno. *)
Definition chosen_synonym (ms : list ms_row) (md : md_row) : option string :=
  match md_molregno md with
  | Some k => group_min ms (Some k)
  | None => None
  end.


(** The synonym keys the data frame hands back unchanged: no synonym row
    has a NULL molregno, or every molregno fits the 53 bits of a
    float64. *)
Definition keys_exact (ms : list ms_row) : Prop :=
  (∀ r, r ∈ ms → ms_molregno r ≠ None)
  ∨ (∀ r k, r ∈ ms → ms_molregno r = Some k → (Z.abs k ≤ 2 ^ 53)%Z).

Definition synonym_keys_exact (db : database) : Prop :=
  match molecule_synonyms db with
  | Some ms => keys_exact ms
  | None => True
  end.

(** The synonym candidate [q_drugs] offers for a molecule: the chosen
    synonym when the fill is on and the synonym table exists, NULL
    otherwise. *)
Definition synonym_candidate (a : args) (db : database) (md : md_row)
    : option string :=
  if fill_synonyms a then
    match molecule_synonyms db with
    | Some ms => chosen_synonym ms md
    | None => None
    end
  else None.


Definition aspirin_synonyms : list ms_row :=
  [{| ms_molregno := Some 1; ms_synonyms := Some "Aspirin" |};
   {| ms_molregno := Some 1; ms_synonyms := Some "ASA" |}].

Definition aspirin_db : database :=
  {| td_cols := ∅; dm_cols := ∅; md_cols := ∅;
     molecule_dictionary :=
       [{| md_molregno := Some 1; md_chembl_id := Some "CHEMBL25";
           md_pref_name := None; md_max_phase := Some 4 |}];
     drug_mechanism := []; target_dictionary := [];
     target_components := []; component_sequences := [];
     molecule_synonyms := Some aspirin_synonyms |}.


(** Two targets share the component P1; one has a null preferred name, the
    other an empty one. *)
Definition shared_component_db : database :=
  {| td_cols := {["tid"; "chembl_id"; "pref_name"]};
     dm_cols := {["molregno"; "tid"; "mechanism_of_action"; "action_type"]};
     md_cols := {["molregno"; "chembl_id"; "pref_name"; "max_phase"]};
     molecule_dictionary :=
       [{| md_molregno := Some 1; md_chembl_id := Some "CHEMBL25";
           md_pref_name := Some "ASPIRIN"; md_max_phase := Some 4 |}];
     drug_mechanism :=
       [{| dm_molregno := Some 1; dm_molecule_chembl_id := None;
           dm_tid := Some 10; dm_target_chembl_id := None;
           dm_mechanism_of_action := Some "Cyclooxygenase inhibitor";
           dm_action_type := Some "INHIBITOR" |}];
     target_dictionary :=
       [{| td_tid := Some 10; td_chembl_id := Some "CHEMBL2094253";
           td_target_chembl_id := None; td_pref_name := None |};
        {| td_tid := Some 11; td_chembl_id := Some "CHEMBL221";
           td_target_chembl_id := None; td_pref_name := Some "" |}];
     target_components :=
       [{| tc_tid := Some 10; tc_component_id := Some 100 |};
        {| tc_tid := Some 11; tc_component_id := Some 100 |}];
     component_sequences :=
       [{| cs_component_id := Some 100; cs_accession := Some "P1" |}];
     molecule_synonyms := None |}.

End Chembl.

(** ** map_chembl_to_drugbank_unichem_dump.py *)
Module ChemblDrugbank.
Import Py.

(** A row of nodes_drug_chembl_phase4.csv. *)
Record drug_row : Type := { d_chembl_id : cell; d_name : cell }.

(** src1src2.txt as read: its header and, per row, the cells of the
    chembl_id and drugbank_id columns. *)
Record unichem_file : Type := {
  um_columns : list string;
  um_rows : list (cell * cell)
}.

(** A row of the mapping written to chembl_to_drugbank.csv. *)
Record merged_row : Type := {
  m_chembl_id : string;
  m_name : cell;
  m_drugbank_id : string
}.

#[global] Instance merged_row_eq_dec : EqDecision merged_row.
Proof. solve_decision. Defined.

(** Step 1: [df_drugs], chembl_id as stripped text, one row per id. *)
Definition load_drugs (f : list drug_row) : list (string * cell) :=
  drop_duplicates_on fst
    (map (λ r, (strip (astype_str (d_chembl_id r)), d_name r)) f).

(** Step 2: [df_map]; [None] is the [ValueError] on a missing column. *)
Definition load_map (f : unichem_file) : option (list (string * string)) :=
  if bool_decide ("chembl_id" ∈ um_columns f)
     && bool_decide ("drugbank_id" ∈ um_columns f)
  then Some (map (λ r, (strip (astype_str (fst r)), strip (astype_str (snd r))))
                 (um_rows f))
  else None.

(** Step 3: [df_drugs.merge(df_map, on="chembl_id", how="inner")] and the
    deduplication on (chembl_id, drugbank_id). *)
Definition merge_inner (df_drugs : list (string * cell))
    (df_map : list (string * string)) : list merged_row :=
  flat_map
    (λ d, flat_map
            (λ r, if bool_decide (fst r = fst d)
                  then [{| m_chembl_id := fst d; m_name := snd d;
                           m_drugbank_id := snd r |}]
                  else [])
            df_map)
    df_drugs.

Definition merged (df_drugs : list (string * cell))
    (df_map : list (string * string)) : list merged_row :=
  drop_duplicates_on (λ r, (m_chembl_id r, m_drugbank_id r))
    (merge_inner df_drugs df_map).

(** Step 4 *)
Definition mapped_ids (m : list merged_row) : gset string :=
  list_to_set (map m_chembl_id m).
Definition all_ids (df_drugs : list (string * cell)) : gset string :=
  list_to_set (map fst df_drugs).
Definition missing_ids (df_drugs : list (string * cell)) (m : list merged_row)
    : list string :=
  sorted (elements (all_ids df_drugs ∖ mapped_ids m)).

(** [main]: the mapping table and the unmapped ids it writes. *)
Definition main (drugs_csv : list drug_row) (unichem : unichem_file)
    : option (list merged_row * list string) :=
  let df_drugs := load_drugs drugs_csv in
  match load_map unichem with
  | None => None
  | Some df_map =>
      let m := merged df_drugs df_map in
      Some (m, missing_ids df_drugs m)
  end.

(** Vocabulary of the statements below, and sample inputs. *)

Definition two_drugs : list drug_row :=
  [{| d_chembl_id := CStr "CHEMBL25"; d_name := CStr "ASPIRIN" |};
   {| d_chembl_id := CStr "CHEMBL1"; d_name := CNaN |}].

Definition one_mapping : unichem_file :=
  {| um_columns := ["chembl_id"; "drugbank_id"];
     um_rows := [(CStr "CHEMBL25", CStr "DB00945")] |}.

End ChemblDrugbank.

(** ** map_sider_stitch_to_chembl_via_pubchem.py *)
Module SiderChembl.
Import Py.

(** [\d] and [[1-9]] *)
Definition is_digit (c : ascii) : bool :=
  let n := N_of_ascii c in ((48 <=? n) && (n <=? 57))%N.
Definition is_digit19 (c : ascii) : bool :=
  let n := N_of_ascii c in ((49 <=? n) && (n <=? 57))%N.

(** [$]: the end of the text, or just before a final newline. *)
Definition at_end (s : string) : bool :=
  match s with
  | EmptyString => true
  | String c EmptyString => (N_of_ascii c =? 10)%N
  | _ => false
  end.

(** [\d*$] from here: the digits taken, greedily, when the end follows. *)
Fixpoint digits_to_end (s : string) : option string :=
  match s with
  | EmptyString => Some EmptyString
  | String c s' =>
      if is_digit c then
        match digits_to_end s' with
        | Some ds => Some (String c ds)
        | None => None
        end
      else if at_end s then Some EmptyString else None
  end.

(** The group [([1-9]\d*|0)] followed by [$], tried at the head of [s]:
    the first alternative, then the second. *)
Definition group_to_end (s : string) : option string :=
  match s with
  | EmptyString => None
  | String c s' =>
      match (if is_digit19 c then digits_to_end s' else None) with
      | Some ds => Some (String c ds)
      | None =>
          if (N_of_ascii c =? 48)%N && at_end s' then Some (String c EmptyString)
          else None
      end
  end.

(** [0*] then the group: a zero is taken first (greedy) and given back when
    the rest does not match. *)
Fixpoint zeros_group_to_end (s : string) : option string :=
  match s with
  | EmptyString => group_to_end s
  | String c s' =>
      if (N_of_ascii c =? 48)%N then
        match zeros_group_to_end s' with
        | Some g => Some g
        | None => group_to_end s
        end
      else group_to_end s
  end.

(** [re.match(r"CID0*([1-9]\d*|0)$", sid)]: the text of group 1. *)
Definition re_match (sid : string) : option string :=
  match sid with
  | String c1 (String c2 (String c3 rest)) =>
      if Ascii.eqb c1 "C" && Ascii.eqb c2 "I" && Ascii.eqb c3 "D"
      then zeros_group_to_end rest
      else None
  | _ => None
  end.

(** [int(text)] on a run of decimal digits. *)
Definition int_of_digits (s : string) : Z :=
  fold_left (λ acc c, 10 * acc + (Z.of_N (N_of_ascii c) - 48))
            (list_ascii_of_string s) 0.

(** [extract_pubchem_cid(stitch_id)]; a cell that is not a [str] gives
    [None]. *)
Definition extract_pubchem_cid (stitch_id : cell) : option Z :=
  match stitch_id with
  | CNaN => None
  | CStr s =>
      let sid := strip s in
      match re_match sid with
      | None => None
      | Some g => Some (int_of_digits g)
      end
  end.

(** A row of edges_drug_sideeffect_stitch.csv. *)
Record sider_row : Type := {
  stitch_id : cell;
  umls_cui : cell;
  frequency_lower : cell;
  frequency_upper : cell
}.

(** A row of [edges] once pubchem_cid is derived. *)
Record cid_row : Type := {
  c_stitch_id : string;
  c_umls_cui : cell;
  c_frequency_lower : cell;
  c_frequency_upper : cell;
  c_pubchem_cid : Z
}.

(** The cleaned id of a row, [astype(str).str.strip()], and what [apply]
    gives for it. *)
Definition clean_id (r : sider_row) : string := strip (astype_str (stitch_id r)).

Definition cid_of (r : sider_row) : option Z :=
  extract_pubchem_cid (CStr (clean_id r)).

(** The dtype [apply] leaves the pubchem_cid column with: as soon as one
    id gives [None] the column is float64 (with NaN), otherwise it holds
    the integers. *)
Definition float_column (f : list sider_row) : bool :=
  negb (forallb (λ r, bool_decide (cid_of r ≠ None)) f).

(** The value the column holds for a parsed CID. *)
Definition stored_cid (f : list sider_row) (cid : Z) : Z :=
  if float_column f then to_float64 cid else cid.

(** The row of [edges] a row of the file becomes, with the value [v] in
    its pubchem_cid column. *)
Definition edge_of (r : sider_row) (v : Z) : cid_row :=
  {| c_stitch_id := clean_id r; c_umls_cui := umls_cui r;
     c_frequency_lower := frequency_lower r;
     c_frequency_upper := frequency_upper r;
     c_pubchem_cid := v |}.

(** Step 1 of [main]: strip the id, derive the CID, [dropna], then
    [astype(int)], which gives int64. [None]: a stored CID does not fit
    int64, where the script raises OverflowError or the cast does not
    keep the value; the rest of [main] is modelled on tables that hold
    the stored CIDs. *)
Definition load_edges (f : list sider_row) : option (list cid_row) :=
  let rows :=
    omap (λ r,
            match cid_of r with
            | Some cid => Some (edge_of r (stored_cid f cid))
            | None => None
            end)
         f in
  if forallb (λ e, (c_pubchem_cid e <? 2 ^ 63)%Z) rows
  then Some rows else None.

(** A row of the full mapping: stitch_id, pubchem_cid, chembl_id,
    umls_cui. *)
Record map_row : Type := {
  mp_stitch_id : string;
  mp_pubchem_cid : Z;
  mp_chembl_id : string;
  mp_umls_cui : cell
}.

#[global] Instance map_row_eq_dec : EqDecision map_row.
Proof. solve_decision. Defined.

(** Step 3: [edges.merge(uc, on="pubchem_cid", how="inner")] against the
    inverted UniChem table [uc] of (pubchem_cid, chembl_id) rows, the kept
    columns, and [drop_duplicates]; the [sort_values] that follows only
    reorders these rows. *)
Definition map_full (edges : list cid_row) (uc : list (Z * string))
    : list map_row :=
  drop_duplicates
    (flat_map
       (λ e, flat_map
               (λ u, if bool_decide (fst u = c_pubchem_cid e)
                     then [{| mp_stitch_id := c_stitch_id e;
                              mp_pubchem_cid := c_pubchem_cid e;
                              mp_chembl_id := snd u;
                              mp_umls_cui := c_umls_cui e |}]
                     else [])
               uc)
       edges).

(** Vocabulary of the statements below, and sample inputs. *)

Fixpoint all_digits (s : string) : bool :=
  match s with
  | EmptyString => true
  | String c s' => is_digit c && all_digits s'
  end.

(** The newline character as a one-character text. *)
Definition nl : string := String (ascii_of_N 10) EmptyString.

(** The pattern in words: the letters CID, then one or more digits. *)
Definition cid_pattern (s : string) : Prop :=
  ∃ ds, s = "CID" +:+ ds ∧ ds ≠ "" ∧ all_digits ds = true.

(** What a successful match at the digits says: the text here is a
    non-empty run of digits, up to a final newline, and the group has its
    numeric value. *)
Definition digits_here (s g : string) : Prop :=
  ∃ ds, (s = ds ∨ s = ds +:+ nl) ∧ ds ≠ "" ∧ all_digits ds = true
        ∧ int_of_digits g = int_of_digits ds.

Definition unparsable_row : sider_row :=
  {| stitch_id := CStr "ABC123"; umls_cui := CStr "C0000737";
     frequency_lower := CNaN; frequency_upper := CNaN |}.

Definition parsable_row : sider_row :=
  {| stitch_id := CStr "CID000010917"; umls_cui := CStr "C0000737";
     frequency_lower := CNaN; frequency_upper := CNaN |}.

(** A row of nodes_drug_chembl_phase4.csv, as step 4 reads it. *)
Record p4_row : Type := { p4_chembl_id : cell; p4_name : cell }.

(** [p4_ids = set(p4["chembl_id"].unique())] after the strip. *)
Definition p4_ids (p4 : list p4_row) : gset string :=
  list_to_set (map (λ r, strip (astype_str (p4_chembl_id r))) p4).

(** [map_full[map_full["chembl_id"].isin(p4_ids)]] *)
Definition map_phase4 (mf : list map_row) (p4 : list p4_row) : list map_row :=
  filter (λ r, mp_chembl_id r ∈ p4_ids p4) mf.

(** Steps 1, 3 and 4 of [main] on the SIDER edges, the inverted UniChem
    table and the phase-4 drug file ([None] when that file does not
    exist): the full mapping, and the phase-4 mapping when it is
    written. The result is [None] when step 1 is. *)
Definition main (f : list sider_row) (uc : list (Z * string))
    (p4 : option (list p4_row))
    : option (list map_row * option (list map_row)) :=
  match load_edges f with
  | None => None
  | Some edges =>
      let mf := map_full edges uc in
      Some (mf, match p4 with
                | Some rows => Some (map_phase4 mf rows)
                | None => None
                end)
  end.

(** The parsed CIDs of a file all fit the 53 bits of a float64. *)
Definition cids_exact (f : list sider_row) : Prop :=
  ∀ r cid, r ∈ f → cid_of r = Some cid → (cid ≤ 2 ^ 53)%Z.

(** [k] zeros, the padding of a STITCH id. *)
Fixpoint zeros (k : nat) : string :=
  match k with
  | O => ""
  | S k' => String "0" (zeros k')
  end.

End SiderChembl.

(** ** map_uniprot_to_entrez.py *)
Module UniprotEntrez.
Import Py.

(** A row of nodes_target_uniprot_phase4.csv. *)
Record target_row : Type := { t_uniprot : cell; t_target_name : cell }.

(** [set(df["uniprot"].str.strip().dropna().unique())] *)
Definition target_uniprots (df : list target_row) : gset string :=
  list_to_set
    (omap (λ r, match str_strip (t_uniprot r) with
                | CStr s => Some s
                | CNaN => None
                end)
          df).

(** The streaming loop over the rows of the tab-separated dump. *)
Definition mapping (targets : gset string) (rows : list (list string))
    : list (string * string) :=
  flat_map
    (λ row,
       if bool_decide (length row ≠ 3%nat) then []
       else
         match row with
         | [uniprot; mapping_type; value] =>
             if String.eqb mapping_type "GeneID"
                && bool_decide (uniprot ∈ targets)
             then [(uniprot, value)]
             else []
         | _ => []
         end)
    rows.

(** [main]: the rows written to uniprot_to_entrez.csv. *)
Definition main (df : list target_row) (rows : list (list string))
    : list (string * string) :=
  drop_duplicates (mapping (target_uniprots df) rows).

(** Vocabulary of the statements below, and sample inputs. *)

(** What one line of the dump contributes. *)
Definition contribution (targets : gset string) (row : list string)
    : list (string * string) :=
  mapping targets [row].

Definition one_target : list target_row :=
  [{| t_uniprot := CStr " P23219 "; t_target_name := CStr "COX-1" |}].

End UniprotEntrez.

(** ** extract_sider.py *)
Module Sider.
Import Py.

Section Frames.
(** A cell as pandas parsed it (a text, a number or NaN), with the
    equality [drop_duplicates] uses, [astype(str)] on it, and NaN. *)
Context {value : Type} `{EqDecision value}.
Context (to_str : value → string) (nan : value).

(** Rows of meddra_all_se.tsv and meddra_freq.tsv. *)
Record all_se_row : Type := {
  se_stitch_id : value;
  se_umls_cui : value;
  se_side_effect_name : value;
  se_method : value;
  se_meddra_type : value
}.
Record freq_row : Type := {
  fq_stitch_id : value;
  fq_umls_cui : value;
  fq_frequency_lower : value;
  fq_frequency_upper : value;
  fq_meddra_type : value;
  fq_sample_size : value
}.

(** A row of edges_drug_sideeffect_stitch.csv. *)
Record edge_freq_row : Type := {
  stitch_id : string;
  umls_cui : string;
  frequency_lower : value;
  frequency_upper : value
}.

#[global] Instance edge_freq_row_eq_dec : EqDecision edge_freq_row.
Proof. solve_decision. Defined.

(** [edges = all_se[["stitch_id","umls_cui"]].drop_duplicates()], ids as
    text. *)
Definition edges (all_se : list all_se_row) : list (string * string) :=
  drop_duplicates
    (map (λ r, (to_str (se_stitch_id r), to_str (se_umls_cui r))) all_se).

(** [freq], the four kept columns, deduplicated. *)
Definition freq_kept (freq : list freq_row) : list edge_freq_row :=
  drop_duplicates
    (map (λ r, {| stitch_id := to_str (fq_stitch_id r);
                  umls_cui := to_str (fq_umls_cui r);
                  frequency_lower := fq_frequency_lower r;
                  frequency_upper := fq_frequency_upper r |})
         freq).

(** [edges.merge(freq, on=["stitch_id","umls_cui"], how="left")] *)
Definition edges_freq (edges : list (string * string))
    (freq : list edge_freq_row) : list edge_freq_row :=
  flat_map
    (λ e, match filter (λ f, (stitch_id f, umls_cui f) = e) freq with
          | [] => [{| stitch_id := fst e; umls_cui := snd e;
                      frequency_lower := nan; frequency_upper := nan |}]
          | fs => fs
          end)
    edges.

(** [se_nodes]: rows (umls_cui, name). *)
Definition se_nodes (all_se : list all_se_row) : list (string * value) :=
  drop_duplicates
    (map (λ r, (to_str (se_umls_cui r), se_side_effect_name r)) all_se).

(** The two tables the script writes: nodes, then edges. *)
Definition main (all_se : list all_se_row) (freq : list freq_row)
    : list (string * value) * list edge_freq_row :=
  (se_nodes all_se, edges_freq (edges all_se) (freq_kept freq)).
End Frames.

(** Sample input: one association row, read as text cells. *)
Definition abdominal_pain_row : @all_se_row cell :=
  {| se_stitch_id := CStr "CID100000085"; se_umls_cui := CStr "C0000737";
     se_side_effect_name := CStr "Abdominal pain"; se_method := CNaN;
     se_meddra_type := CStr "PT" |}.

End Sider.

(** * Properties *)

(** ** Deduplication of frames *)
Section FrameFacts.
Context {A : Type} `{EqDecision A}.

Lemma elem_of_drop_duplicates (l : list A) (x : A) :
  x ∈ Py.drop_duplicates l ↔ x ∈ l.
Proof.
  induction l as [|y l IH]; simpl; [done|].
  rewrite !elem_of_cons, list_elem_of_filter, IH.
  destruct (decide (x = y)); tauto.
Qed.

Lemma NoDup_drop_duplicates (l : list A) : NoDup (Py.drop_duplicates l).
Proof.
  induction l as [|y l IH]; simpl; [constructor|].
  constructor; [|by apply NoDup_filter].
  rewrite list_elem_of_filter. tauto.
Qed.

End FrameFacts.

(** ** Edge orientation and evidence (hetionet_extract_to_csv.py) *)
Section HetionetFacts.
Import Py Hetionet.

(** Case analysis on the string tests of [process_edge]. *)
Ltac split_eqb :=
  repeat match goal with
         | |- context [String.eqb ?a ?b] =>
             destruct (String.eqb_spec a b); subst; simpl
         end.

Lemma swap_endpoints_ekind (e : edge) : ekind (swap_endpoints e) = ekind e.
Proof. reflexivity. Qed.

Lemma swap_endpoints_direc (e : edge) : direc (swap_endpoints e) = direc e.
Proof. reflexivity. Qed.

Lemma swap_endpoints_ev (e : edge) : ev (swap_endpoints e) = ev e.
Proof. reflexivity. Qed.

(** What the loop body does on an "associates" edge whose direction passes
    the test. *)
Lemma process_edge_associates (e : edge) (T : tables) :
  ekind e = "associates" →
  direc e = "both" ∨ direc e = "forward" →
  process_edge e T =
    if String.eqb (fst (source_id e)) "Gene"
       && String.eqb (fst (target_id e)) "Disease"
    then append_gene_disease
           {| gd_entrez_id := str (snd (source_id e));
              gd_doid := str (snd (target_id e));
              gd_evidence := ev e |} T
    else if String.eqb (fst (source_id e)) "Disease"
            && String.eqb (fst (target_id e)) "Gene"
    then append_gene_disease
           {| gd_entrez_id := str (snd (target_id e));
              gd_doid := str (snd (source_id e));
              gd_evidence := ev e |} T
    else T.
Proof.
  intros Hk Hd. unfold process_edge.
  destruct (source_id e) as [sk si], (target_id e) as [tk ti].
  rewrite Hk. destruct Hd as [-> | ->]; reflexivity.
Qed.

(** What the loop body does on an edge of an asymmetric relation. *)
Lemma process_edge_asymmetric (r : asymmetric) (e : edge) (T : tables) :
  ekind e = relation_name r →
  process_edge e T =
    if str_in (direc e) ["forward"; "both"] then
      if String.eqb (fst (source_id e)) "Compound"
         && String.eqb (fst (target_id e)) (object_kind r)
      then append_canonical r (str (snd (source_id e)))
                            (str (snd (target_id e))) (ev e) T
      else if String.eqb (direc e) "both"
              && String.eqb (fst (source_id e)) (object_kind r)
              && String.eqb (fst (target_id e)) "Compound"
      then append_canonical r (str (snd (target_id e)))
                            (str (snd (source_id e))) (ev e) T
      else T
    else T.
Proof.
  intros Hk. unfold process_edge.
  destruct (source_id e) as [sk si], (target_id e) as [tk ti].
  rewrite Hk. destruct r; simpl;
    destruct (String.eqb (direc e) "forward"
              || (String.eqb (direc e) "both" || false));
    reflexivity.
Qed.

(** An absent direction tag is read as "both". *)
Lemma direc_absent (e : edge) : direction e = None → direc e = "both".
Proof. unfold direc. by intros ->. Qed.

(** Replacing one iteration of the loop by an equal one leaves the four
    tables equal. *)
Lemma extract_edges_step (before after : list edge) (e e' : edge) :
  (∀ T, process_edge e' T = process_edge e T) →
  extract_edges (before ++ e' :: after) = extract_edges (before ++ e :: after).
Proof.
  intros Hstep. unfold extract_edges.
  rewrite !fold_left_app. simpl. by rewrite Hstep.
Qed.

(** Skipping an iteration that appends nothing leaves the four tables
    equal. *)
Lemma extract_edges_skip (before after : list edge) (e : edge) :
  (∀ T, process_edge e T = T) →
  extract_edges (before ++ e :: after) = extract_edges (before ++ after).
Proof.
  intros Hstep. unfold extract_edges.
  rewrite !fold_left_app. simpl. by rewrite Hstep.
Qed.

(** C1. For every "associates" record whose direction tag is both or
    forward, the loop body appends the same rows whichever endpoint is
    listed first: swapping the source and target endpoints of the raw
    record leaves the result unchanged, also in the written tables of a
    whole run, and for a Gene endpoint g and a Disease endpoint d the row
    appended is the Gene→Disease edge (entrez_id = g, doid = d,
    evidence). *)
Theorem associates_endpoint_order_irrelevant (e : edge) (T : tables) :
  ekind e = "associates" →
  direc e = "both" ∨ direc e = "forward" →
  process_edge (swap_endpoints e) T = process_edge e T
  ∧ (∀ before after,
       written_edges (before ++ swap_endpoints e :: after)
       = written_edges (before ++ e :: after))
  ∧ (∀ g d, source_id e = ("Gene", g) → target_id e = ("Disease", d) →
       process_edge e T =
         append_gene_disease
           {| gd_entrez_id := str g; gd_doid := str d;
              gd_evidence := ev e |} T).
Proof.
  intros Hk Hd.
  assert (∀ T', process_edge (swap_endpoints e) T' = process_edge e T')
    as Hswap.
  { intros T'. rewrite (process_edge_associates e T' Hk Hd).
    rewrite (process_edge_associates (swap_endpoints e) T' Hk Hd).
    simpl. destruct (source_id e) as [sk si], (target_id e) as [tk ti].
    simpl. split_eqb; first [reflexivity | congruence]. }
  split; [apply Hswap|]. split.
  - intros before after. unfold written_edges.
    by rewrite (extract_edges_step before after e (swap_endpoints e) Hswap).
  - intros g d Hs Ht.
    rewrite (process_edge_associates e T Hk Hd), Hs, Ht. reflexivity.
Qed.

Lemma associates_endpoint_order_irrelevant_witness :
  process_edge (swap_endpoints gene_disease_edge) no_edges
    = process_edge gene_disease_edge no_edges
  ∧ (∀ before after,
       written_edges (before ++ swap_endpoints gene_disease_edge :: after)
       = written_edges (before ++ gene_disease_edge :: after))
  ∧ (∀ g d, source_id gene_disease_edge = ("Gene", g) →
       target_id gene_disease_edge = ("Disease", d) →
       process_edge gene_disease_edge no_edges =
         append_gene_disease
           {| gd_entrez_id := str g; gd_doid := str d;
              gd_evidence := ev gene_disease_edge |} no_edges).
Proof.
  apply (associates_endpoint_order_irrelevant gene_disease_edge no_edges);
    [reflexivity | left; reflexivity].
Defined.

(** C3. For every "binds" record whose direction tag is reverse, the loop
    body appends nothing to any of the four tables, whatever the two
    endpoint kinds are, so the written tables are those of the run without
    the record. *)
Theorem binds_reverse_dropped (e : edge) :
  ekind e = "binds" → direc e = "reverse" →
  (∀ T, process_edge e T = T)
  ∧ (∀ before after,
       written_edges (before ++ e :: after) = written_edges (before ++ after)).
Proof.
  intros Hk Hd.
  assert (∀ T, process_edge e T = T) as Hdrop.
  { intros T. rewrite (process_edge_asymmetric Binds e T Hk), Hd.
    reflexivity. }
  split; [exact Hdrop|].
  intros before after. unfold written_edges.
  by rewrite (extract_edges_skip before after e Hdrop).
Qed.

Lemma binds_reverse_dropped_witness :
  (∀ T, process_edge binds_reverse_edge T = T)
  ∧ (∀ before after,
       written_edges (before ++ binds_reverse_edge :: after)
       = written_edges (before ++ after)).
Proof.
  apply (binds_reverse_dropped binds_reverse_edge); reflexivity.
Defined.

(** C2, as stated, fails: the "binds" record with no direction tag and
    endpoint kinds (Gene, Compound) is not dropped; the written table
    holds it with its endpoints swapped. *)
Lemma binds_untagged_swapped_is_emitted :
  ekind binds_untagged_swapped_edge = "binds"
  ∧ direction binds_untagged_swapped_edge = None
  ∧ fst (source_id binds_untagged_swapped_edge) = "Gene"
  ∧ fst (target_id binds_untagged_swapped_edge) = "Compound"
  ∧ E_DRUG_TARGETS (written_edges [binds_untagged_swapped_edge]) =
      [{| dt_drugbank_id := "DB00001"; dt_entrez_id := "7157";
          dt_evidence := "" |}]
  ∧ process_edge binds_untagged_swapped_edge no_edges ≠ no_edges.
Proof. repeat split; try reflexivity. discriminate. Qed.

(** C2, amended. For every record of an asymmetric relation (binds,
    treats, causes; canonical pair Compound→object kind): an absent
    direction tag is read as both, so a record with no direction tag and
    swapped endpoint kinds (object kind, Compound) is emitted with its
    endpoints swapped into canonical order, as a record tagged both is;
    only a direction of forward, both or absence with endpoint kinds
    already in canonical order emits the edge as it is; every other
    combination (reverse or any other tag, forward with swapped endpoint
    kinds, a kind pair matching neither orientation) drops the record: no
    row is added to any table. *)
Theorem asymmetric_orientation (r : asymmetric) (e : edge) (T : tables) :
  ekind e = relation_name r →
  (direction e = None → direc e = "both")
  ∧ (direc e = "forward" → fst (source_id e) = object_kind r →
     fst (target_id e) = "Compound" → process_edge e T = T)
  ∧ (∀ o c, direction e = None → source_id e = (object_kind r, o) →
       target_id e = ("Compound", c) →
       process_edge e T = append_canonical r (str c) (str o) (ev e) T)
  ∧ (∀ c o, direc e = "forward" ∨ direc e = "both" ∨ direction e = None →
       source_id e = ("Compound", c) → target_id e = (object_kind r, o) →
       process_edge e T = append_canonical r (str c) (str o) (ev e) T)
  ∧ (∀ o c, direc e = "both" → source_id e = (object_kind r, o) →
       target_id e = ("Compound", c) →
       process_edge e T = append_canonical r (str c) (str o) (ev e) T)
  ∧ (¬ (fst (source_id e) = "Compound" ∧ fst (target_id e) = object_kind r
        ∧ (direc e = "forward" ∨ direc e = "both")) →
     ¬ (fst (source_id e) = object_kind r ∧ fst (target_id e) = "Compound"
        ∧ direc e = "both") →
     process_edge e T = T).
Proof.
  intros Hk. split; [apply direc_absent|].
  split; [|split; [|split; [|split]]].
  - intros Hd Hs Ht.
    rewrite (process_edge_asymmetric r e T Hk), Hd, Hs, Ht.
    by destruct r.
  - intros o c Hd Hs Ht.
    rewrite (process_edge_asymmetric r e T Hk), (direc_absent e Hd), Hs, Ht.
    by destruct r.
  - intros c o Hd Hs Ht.
    rewrite (process_edge_asymmetric r e T Hk), Hs, Ht.
    assert (str_in (direc e) ["forward"; "both"] = true) as ->.
    { destruct Hd as [-> | [-> | Hd]]; [done | done |].
      by rewrite (direc_absent e Hd). }
    by destruct r.
  - intros o c Hd Hs Ht.
    rewrite (process_edge_asymmetric r e T Hk), Hd, Hs, Ht.
    by destruct r.
  - intros Hasis Hswap. rewrite (process_edge_asymmetric r e T Hk).
    unfold str_in. simpl.
    destruct (String.eqb_spec (direc e) "forward") as [Hf|Hf];
      destruct (String.eqb_spec (direc e) "both") as [Hb|Hb];
      destruct (String.eqb_spec (fst (source_id e)) "Compound") as [Hsc|Hsc];
      destruct (String.eqb_spec (fst (target_id e)) (object_kind r))
        as [Hto|Hto];
      destruct (String.eqb_spec (fst (source_id e)) (object_kind r))
        as [Hso|Hso];
      destruct (String.eqb_spec (fst (target_id e)) "Compound") as [Htc|Htc];
      simpl; try reflexivity; exfalso; tauto.
Qed.

Lemma asymmetric_orientation_witness :
  process_edge binds_untagged_swapped_edge no_edges =
    append_drug_target
      {| dt_drugbank_id := "DB00001"; dt_entrez_id := "7157";
         dt_evidence := "" |} no_edges.
Proof.
  pose proof (asymmetric_orientation Binds binds_untagged_swapped_edge
                no_edges eq_refl) as (_ & _ & Hswap & _).
  apply (Hswap (JInt 7157) (JStr "DB00001")); reflexivity.
Defined.
End HetionetFacts.

Section EvidenceFacts.
Import Py Hetionet.

(** A payload that is a non-empty object. *)
Lemma evidence_string_object (kv : list (string * json)) :
  kv ≠ [] →
  evidence_string (JObj kv) =
    match dict_get "source" kv with
    | Some (JStr s) => s
    | _ =>
        match dict_get "sources" kv with
        | Some (JArr l) => join ";" (sorted (map str l))
        | Some s => str s
        | None =>
            match dict_get "pmids" kv with
            | Some p =>
                match len p with
                | Some n => "pmids:" +:+ str_of_Z (Z.of_nat n)
                | None => "pmids"
                end
            | None => json_dumps (JObj kv)
            end
        end
    end.
Proof. by destruct kv. Qed.

Lemma dict_get_nonempty (k : string) (kv : list (string * json)) (v : json) :
  dict_get k kv = Some v → kv ≠ [].
Proof. by destruct kv. Qed.

(** C7. The branches of [evidence_string] are tried in a fixed order and
    the first applicable one alone gives the result: the payload
    {sources: [b, a]} gives a;b, the payload {pmids: [1, 2, 3]} gives
    pmids:3, the empty object and the absent payload give the empty
    string; a string "source" wins over "sources" and "pmids", a
    "sources" list wins over "pmids" and is rendered sorted and joined by
    semicolons, and "pmids" is rendered as its count only when neither
    of the other two applies. *)
Theorem evidence_string_first_branch_wins :
  evidence_string (JObj [("sources", JArr [JStr "b"; JStr "a"])]) = "a;b"
  ∧ evidence_string (JObj [("pmids", JArr [JInt 1; JInt 2; JInt 3])])
      = "pmids:3"
  ∧ evidence_string (JObj []) = ""
  ∧ (∀ e, data e = None → ev e = "")
  ∧ (∀ kv s, dict_get "source" kv = Some (JStr s) →
       evidence_string (JObj kv) = s)
  ∧ (∀ kv l, ¬ has_source_string kv →
       dict_get "sources" kv = Some (JArr l) →
       evidence_string (JObj kv) = join ";" (sorted (map str l)))
  ∧ (∀ kv p n, ¬ has_source_string kv →
       dict_get "sources" kv = None →
       dict_get "pmids" kv = Some p → len p = Some n →
       evidence_string (JObj kv) = "pmids:" +:+ str_of_Z (Z.of_nat n)).
Proof.
  split; [reflexivity|]. split; [reflexivity|]. split; [reflexivity|].
  split; [by intros e; unfold ev; intros ->|].
  split; [|split].
  - intros kv s Hs.
    rewrite (evidence_string_object kv (dict_get_nonempty _ _ _ Hs)), Hs.
    reflexivity.
  - intros kv l Hno Hl.
    rewrite (evidence_string_object kv (dict_get_nonempty _ _ _ Hl)), Hl.
    destruct (dict_get "source" kv) as [[| | |s| |]|] eqn:Hs; try reflexivity.
    destruct Hno. by exists s.
  - intros kv p n Hno Hss Hp Hn.
    rewrite (evidence_string_object kv (dict_get_nonempty _ _ _ Hp)).
    rewrite Hss, Hp, Hn.
    destruct (dict_get "source" kv) as [[| | |s| |]|] eqn:Hs; try reflexivity.
    destruct Hno. by exists s.
Qed.

(** A payload with all three keys: only the "source" branch shows. *)
Lemma evidence_string_first_branch_wins_witness :
  evidence_string
    (JObj [("pmids", JArr [JInt 1; JInt 2; JInt 3]);
           ("sources", JArr [JStr "b"; JStr "a"]);
           ("source", JStr "DrugBank")]) = "DrugBank"
  ∧ evidence_string
      (JObj [("pmids", JArr [JInt 1; JInt 2; JInt 3]);
             ("sources", JArr [JStr "b"; JStr "a"]);
             ("source", JInt 5)]) = "a;b".
Proof.
  pose proof evidence_string_first_branch_wins
    as (_ & _ & _ & _ & Hsrc & Hsrcs & _).
  split.
  - apply Hsrc. reflexivity.
  - apply (Hsrcs _ [JStr "b"; JStr "a"]); [|reflexivity].
    intros [s Hs]. discriminate Hs.
Defined.
End EvidenceFacts.

(** ** Integers a float64 holds exactly *)
Section Float64Facts.
Import Py.
Local Open Scope Z_scope.

Lemma to_float64_exact (z : Z) : Z.abs z ≤ 2 ^ 53 → to_float64 z = z.
Proof.
  intros Hz. unfold to_float64.
  destruct (Z.leb_spec (Z.log2 (Z.abs z) + 1) 53) as [|Hgt]; [done|].
  assert (2 ^ 53 = 9007199254740992) as E by reflexivity.
  assert (Z.abs z = 2 ^ 53) as Habs.
  { destruct (Z.eq_dec (Z.abs z) 0) as [H0|Hn0].
    { rewrite H0 in Hgt. simpl in Hgt. lia. }
    destruct (Z.eq_dec (Z.abs z) (2 ^ 53)) as [|Hne]; [done|].
    assert (Z.log2 (Z.abs z) < 53); [|lia].
    apply Z.log2_lt_pow2; lia. }
  destruct (Z.abs_eq_or_opp z) as [Hz' | Hz'].
  - rewrite <- Hz', Habs. reflexivity.
  - assert (z = - 2 ^ 53) as -> by lia. reflexivity.
Qed.

End Float64Facts.

(** ** Name resolution and written tables (extract_chembl_sqlite_cli.py) *)
Section ChemblFacts.
Import Py Chembl.

Lemma leb_trans (x y z : string) :
  String.leb x y = true → String.leb y z = true → String.leb x z = true.
Proof.
  intros Hxy Hyz. apply Is_true_true.
  change (String.le x z). transitivity y; apply Is_true_true; assumption.
Qed.





Lemma sql_eq_true {A : Type} `{EqDecision A} (a b : option A) :
  sql_eq a b = true ↔ ∃ x, a = Some x ∧ b = Some x.
Proof.
  destruct a as [x|], b as [y|]; simpl.
  - rewrite bool_decide_eq_true. split.
    + intros ->. by exists y.
    + intros (z & [= ->] & [= ->]). done.
  - split; [done | by intros (z & _ & [=])].
  - split; [done | by intros (z & [=] & _)].
  - split; [done | by intros (z & [=] & _)].
Qed.

Lemma filter_none {A : Type} (P : A → Prop) `{∀ x, Decision (P x)}
    (l : list A) :
  (∀ x, x ∈ l → ¬ P x) → filter P l = [].
Proof.
  induction l as [|y l IH]; intros Hl; [done|].
  rewrite filter_cons_False; [|apply Hl; left].
  apply IH. intros x Hx. apply Hl. by right.
Qed.

Lemma filter_key (g : option Z → option string) (l : list (option Z)) (k : Z) :
  NoDup l →
  filter (λ s, sql_eq (fst s) (Some k) = true) (map (λ k', (k', g k')) l)
  = if decide (Some k ∈ l) then [(Some k, g (Some k))] else [].
Proof.
  induction 1 as [|a l Ha Hl IH]; [done|].
  simpl. rewrite filter_cons. simpl.
  destruct (decide (sql_eq a (Some k) = true)) as [Heq|Hne].
  - apply sql_eq_true in Heq as (x & -> & [= ->]).
    rewrite IH, (decide_False (P := Some x ∈ l)) by done.
    by rewrite decide_True by left.
  - rewrite IH. destruct (decide (Some k ∈ l)) as [Hin|Hnin].
    + rewrite decide_True by (by right). done.
    + rewrite decide_False; [done|].
      intros [<- | Hin]%elem_of_cons; [|done].
      apply Hne. apply sql_eq_true. by exists k.
Qed.

(** The left join gives every molecule exactly one synonym candidate, the
    minimum of its group (NULL when it has no synonym row). *)
Lemma left_join_q_syn (ms : list ms_row) (md : md_row) :
  left_join_syn (q_syn ms) md = [chosen_synonym ms md].
Proof.
  unfold left_join_syn, chosen_synonym. destruct (md_molregno md) as [k|].
  - unfold q_syn.
    rewrite (filter_key (group_min ms)) by apply NoDup_drop_duplicates.
    destruct (decide _) as [Hin|Hnin]; [done|].
    unfold group_min. rewrite filter_none; [done|].
    intros r Hr Hk. apply Hnin, elem_of_drop_duplicates.
    rewrite <- Hk. apply list_elem_of_In, in_map, list_elem_of_In, Hr.
  - rewrite filter_none; [done|].
    intros s _ Hs. apply sql_eq_true in Hs as (x & _ & [=]).
Qed.



(** Keys a float64 holds exactly come back from the data frame as they
    went in. *)
Lemma read_sql_to_sql_exact (ms : list ms_row) :
  keys_exact ms → read_sql_to_sql (q_syn ms) = q_syn ms.
Proof.
  intros Hk. unfold read_sql_to_sql.
  destruct (forallb _ _) eqn:Hall; [done|].
  assert (∀ k m, In (k, m) (q_syn ms) → ∃ r, r ∈ ms ∧ ms_molregno r = k)
    as Hkeys.
  { intros k m Hin. unfold q_syn in Hin.
    apply in_map_iff in Hin as (k' & [= <- _] & Hk').
    apply list_elem_of_In, elem_of_drop_duplicates, list_elem_of_In,
      in_map_iff in Hk' as (r & <- & Hr).
    exists r. by rewrite list_elem_of_In. }
  destruct Hk as [Hnn | Hb].
  - apply not_true_iff_false in Hall. destruct Hall.
    apply forallb_forall. intros [k m] Hin.
    destruct (Hkeys k m Hin) as (r & Hr & <-). simpl.
    specialize (Hnn r Hr). by destruct (ms_molregno r).
  - rewrite <- (map_id (q_syn ms)) at 2. apply map_ext_in.
    intros [k m] Hin. simpl. f_equal. destruct k as [k|]; [|done].
    simpl. f_equal. apply to_float64_exact.
    destruct (Hkeys _ _ Hin) as (r & Hr & Hk). by apply (Hb r).
Qed.


(** With exact keys the join gives every molecule one synonym candidate,
    the minimum of its group. *)
Lemma joined_syn_candidate (a : args) (db : database) (md : md_row) :
  synonym_keys_exact db →
  joined_syn a db md = [synonym_candidate a db md].
Proof.
  unfold synonym_keys_exact, joined_syn, synonym_candidate, tmp_syn.
  destruct (fill_synonyms a); [|done].
  destruct (molecule_synonyms db) as [ms|]; [|done].
  intros Hk. rewrite (read_sql_to_sql_exact ms Hk). apply left_join_q_syn.
Qed.

(** The left join never leaves a molecule out. *)
Lemma left_join_syn_nonempty (tmp : list (option Z * option string))
    (md : md_row) :
  left_join_syn tmp md ≠ [].
Proof.
  unfold left_join_syn.
  by destruct (filter (λ s, sql_eq (fst s) (md_molregno md) = true) tmp).
Qed.

Lemma joined_syn_nonempty (a : args) (db : database) (md : md_row) :
  joined_syn a db md ≠ [].
Proof.
  unfold joined_syn. destruct (tmp_syn a db); [|done].
  apply left_join_syn_nonempty.
Qed.




Lemma elem_of_q_drugs (a : args) (db : database)
    (row : option string * option string) :
  row ∈ q_drugs a db ↔
  ∃ md syn, md ∈ molecule_dictionary db
            ∧ syn ∈ joined_syn a db md
            ∧ not_null (md_chembl_id md) && where_phase (phase a) md = true
            ∧ row = (md_chembl_id md,
                     name_expr (not_null (tmp_syn a db)) md syn).
Proof.
  unfold q_drugs. rewrite list_elem_of_In, in_flat_map. split.
  - intros (md & Hmd & Hrow). apply in_flat_map in Hrow as (syn & Hsyn & Hrow).
    exists md, syn. rewrite !list_elem_of_In.
    destruct (not_null (md_chembl_id md) && where_phase (phase a) md);
      [|by destruct Hrow].
    by destruct Hrow as [<- | []].
  - intros (md & syn & Hmd & Hsyn & Hw & ->). exists md.
    rewrite <- list_elem_of_In. split; [done|].
    apply in_flat_map. exists syn. rewrite <- list_elem_of_In.
    split; [done|]. rewrite Hw. by left.
Qed.








(** C9 on the target node table: on [shared_component_db] the table
    written holds the row (P1, empty name) twice, since the missing name is
    filled in after the last deduplication. *)
Theorem targets_table_repeats_a_row :
  ∃ out,
    main {| phase := Phase4; fill_synonyms := true |} shared_component_db
      = Some out
    ∧ out_targets out = [(Some "P1", ""); (Some "P1", "")]
    ∧ ¬ NoDup (out_targets out).
Proof.
  eexists. split; [vm_compute; reflexivity|]. simpl. split; [reflexivity|].
  intros Hnd. apply NoDup_cons in Hnd as [Hnd _]. apply Hnd. left.
Qed.

End ChemblFacts.

(** ** Residual ids (map_chembl_to_drugbank_unichem_dump.py) *)
Section ChemblDrugbankFacts.
Import Py ChemblDrugbank.

Lemma elem_of_sorted (l : list string) (x : string) : x ∈ sorted l ↔ x ∈ l.
Proof. unfold sorted. by rewrite merge_sort_Permutation. Qed.

Lemma NoDup_sorted (l : list string) : NoDup l → NoDup (sorted l).
Proof. unfold sorted. by rewrite merge_sort_Permutation. Qed.

(** Deduplication on a key keeps every key. *)
Lemma drop_duplicates_on_keys {A K : Type} `{EqDecision A} `{EqDecision K}
    (key : A → K) (l : list A) (k : K) :
  k ∈ map key (drop_duplicates_on key l) ↔ k ∈ map key l.
Proof.
  induction l as [|y l IH]; simpl; [done|].
  rewrite !elem_of_cons, <- IH. clear IH.
  rewrite !list_elem_of_In, !in_map_iff.
  destruct (decide (k = key y)) as [->|Hne]; [tauto|].
  split; (intros [? | (z & Hz & Hin)]; [by left | right; exists z]).
  - rewrite <- list_elem_of_In in Hin.
    apply list_elem_of_filter in Hin as [_ Hin].
    by rewrite <- list_elem_of_In.
  - split; [done|]. rewrite <- list_elem_of_In in Hin |- *.
    apply list_elem_of_filter. split; [congruence | done].
Qed.

(** The seed ids are the stripped chembl_id cells of the drug file. *)
Lemma all_ids_load_drugs (f : list drug_row) :
  all_ids (load_drugs f)
  = list_to_set (map (λ r, strip (astype_str (d_chembl_id r))) f).
Proof.
  apply set_eq. intros x. unfold all_ids, load_drugs.
  rewrite !elem_of_list_to_set, drop_duplicates_on_keys, map_map. done.
Qed.

(** [main] fails only on a mapping file without the two columns. *)
Lemma main_succeeds (drugs_csv : list drug_row) (unichem : unichem_file) :
  "chembl_id" ∈ um_columns unichem → "drugbank_id" ∈ um_columns unichem →
  is_Some (main drugs_csv unichem).
Proof.
  intros H1 H2. unfold main, load_map.
  rewrite !bool_decide_eq_true_2 by done. simpl. eauto.
Qed.

(** C5. Whatever the drug file and the mapping table are, the unmapped ids
    written are exactly the seed ids minus the ids in the left column of
    the resolved mapping, listed once each; so no id is both in that left
    column and in the residual output. *)
Theorem residual_is_seed_minus_resolved (drugs_csv : list drug_row)
    (unichem : unichem_file) (resolved : list merged_row)
    (residual : list string) :
  main drugs_csv unichem = Some (resolved, residual) →
  (list_to_set residual : gset string)
    = all_ids (load_drugs drugs_csv) ∖ list_to_set (map m_chembl_id resolved)
  ∧ NoDup residual
  ∧ ∀ x, ¬ (x ∈ map m_chembl_id resolved ∧ x ∈ residual).
Proof.
  unfold main. destruct (load_map unichem) as [df_map|]; [|done].
  intros [= <- <-]. unfold missing_ids, mapped_ids.
  set (seed := all_ids (load_drugs drugs_csv)).
  set (left := map m_chembl_id (merged (load_drugs drugs_csv) df_map)).
  assert (∀ x, x ∈ sorted (elements (seed ∖ list_to_set left))
               ↔ x ∈ seed ∧ x ∉ left) as Hiff.
  { intros x.
    rewrite elem_of_sorted, elem_of_elements, elem_of_difference.
    by rewrite elem_of_list_to_set. }
  split; [|split].
  - apply set_eq. intros x.
    rewrite elem_of_list_to_set, Hiff, elem_of_difference.
    by rewrite elem_of_list_to_set.
  - apply NoDup_sorted, NoDup_elements.
  - intros x [Hl Hr]. apply Hiff in Hr as [_ Hr]. done.
Qed.

Lemma residual_is_seed_minus_resolved_witness :
  (list_to_set ["CHEMBL1"] : gset string)
    = all_ids (load_drugs two_drugs)
      ∖ list_to_set
          (map m_chembl_id
             [{| m_chembl_id := "CHEMBL25"; m_name := CStr "ASPIRIN";
                 m_drugbank_id := "DB00945" |}])
  ∧ NoDup ["CHEMBL1"]
  ∧ ∀ x, ¬ (x ∈ map m_chembl_id
                  [{| m_chembl_id := "CHEMBL25"; m_name := CStr "ASPIRIN";
                      m_drugbank_id := "DB00945" |}]
            ∧ x ∈ ["CHEMBL1"]).
Proof.
  apply (residual_is_seed_minus_resolved two_drugs one_mapping).
  vm_compute. reflexivity.
Defined.
End ChemblDrugbankFacts.

(** ** STITCH ids (map_sider_stitch_to_chembl_via_pubchem.py) *)
Section SiderChemblFacts.
Import Py SiderChembl.

Lemma at_end_spec (s : string) : at_end s = true → s = "" ∨ s = nl.
Proof.
  destruct s as [|c [|c' s']]; simpl; [by left| |done].
  intros Hc%N.eqb_eq. right. unfold nl. f_equal.
  by rewrite <- (ascii_N_embedding c), Hc.
Qed.

Lemma digits_to_end_sound (s ds : string) :
  digits_to_end s = Some ds →
  all_digits ds = true ∧ (s = ds ∨ s = ds +:+ nl).
Proof.
  revert ds. induction s as [|c s IH]; intros ds; cbn [digits_to_end].
  { intros [= <-]. split; [done | by left]. }
  destruct (is_digit c) eqn:Hc.
  - destruct (digits_to_end s) as [ds'|]; [|done]. intros [= <-].
    destruct (IH ds' eq_refl) as [Hd [-> | ->]]; cbn [all_digits];
      rewrite Hc, Hd; split; auto.
  - destruct (at_end (String c s)) eqn:He; [|done]. intros [= <-].
    apply at_end_spec in He as [He | He]; [done|].
    split; [done | right; by rewrite He].
Qed.

Lemma digits_to_end_complete (ds : string) :
  all_digits ds = true → digits_to_end ds = Some ds.
Proof.
  induction ds as [|c ds IH]; simpl; [done|].
  intros [Hc Hd]%andb_prop. by rewrite Hc, (IH Hd).
Qed.

Lemma is_digit19_digit (c : ascii) : is_digit19 c = true → is_digit c = true.
Proof.
  unfold is_digit19, is_digit.
  intros [H1 H2]%andb_prop. apply N.leb_le in H1.
  apply andb_true_intro. split; [apply N.leb_le; lia | done].
Qed.

Lemma zero_is_digit (c : ascii) : (N_of_ascii c =? 48)%N = true → is_digit c = true.
Proof. unfold is_digit. by intros ->%N.eqb_eq. Qed.

Lemma group_to_end_sound (s g : string) :
  group_to_end s = Some g → digits_here s g.
Proof.
  destruct s as [|c s]; simpl; [done|].
  destruct (is_digit19 c) eqn:H19.
  - destruct (digits_to_end s) as [ds|] eqn:Hds.
    + intros [= <-]. apply digits_to_end_sound in Hds as [Hd Hs].
      exists (String c ds). simpl. rewrite (is_digit19_digit c H19), Hd.
      repeat split; [|done].
      destruct Hs as [-> | ->]; [by left | by right].
    + destruct ((N_of_ascii c =? 48)%N) eqn:H0; [|done].
      apply N.eqb_eq in H0. unfold is_digit19 in H19. rewrite H0 in H19.
      done.
  - destruct ((N_of_ascii c =? 48)%N) eqn:H0; [|done]. simpl.
    destruct (at_end s) eqn:He; [|done]. intros [= <-].
    exists (String c ""). simpl. rewrite (zero_is_digit c H0).
    repeat split; [|done].
    apply at_end_spec in He as [-> | ->]; [by left | by right].
Qed.

Lemma int_of_digits_leading_zero (c : ascii) (s : string) :
  (N_of_ascii c =? 48)%N = true →
  int_of_digits (String c s) = int_of_digits s.
Proof.
  intros H0%N.eqb_eq. unfold int_of_digits. simpl. by rewrite H0.
Qed.

Lemma zeros_group_to_end_sound (s g : string) :
  zeros_group_to_end s = Some g → digits_here s g.
Proof.
  revert g. induction s as [|c s IH]; intros g; cbn [zeros_group_to_end];
    [apply group_to_end_sound|].
  destruct ((N_of_ascii c =? 48)%N) eqn:H0; [|apply group_to_end_sound].
  destruct (zeros_group_to_end s) as [g'|]; [|apply group_to_end_sound].
  intros [= <-]. destruct (IH g' eq_refl) as (ds & Hs & Hne & Hd & Hv).
  exists (String c ds).
  rewrite (int_of_digits_leading_zero c ds H0). cbn [all_digits].
  rewrite (zero_is_digit c H0), Hd.
  repeat split; [|done|done].
  destruct Hs as [-> | ->]; [by left | by right].
Qed.

Lemma zeros_group_to_end_complete (ds : string) :
  ds ≠ "" → all_digits ds = true →
  ∃ g, zeros_group_to_end ds = Some g
       ∧ int_of_digits g = int_of_digits ds.
Proof.
  induction ds as [|c ds IH]; [done|]. intros _.
  cbn [all_digits zeros_group_to_end].
  intros [Hc Hd]%andb_prop.
  destruct ((N_of_ascii c =? 48)%N) eqn:H0.
  - destruct ds as [|c' ds'].
    + cbn [zeros_group_to_end group_to_end]. rewrite H0.
      destruct (is_digit19 c) eqn:H19; simpl; eauto.
    + destruct (IH ltac:(done) Hd) as (g & -> & Hv).
      exists g. split; [done|].
      by rewrite (int_of_digits_leading_zero c _ H0).
  - assert (is_digit19 c = true) as H19.
    { unfold is_digit, is_digit19 in *.
      apply andb_prop in Hc as [H1 H2]. apply N.leb_le in H1.
      apply N.eqb_neq in H0.
      apply andb_true_intro. split; [apply N.leb_le; lia | done]. }
    cbn [group_to_end]. rewrite H19, (digits_to_end_complete ds Hd). eauto.
Qed.
(** A stripped text does not end in a whitespace character. *)
Lemma rstrip_last (s t : string) (c : ascii) :
  rstrip s = t +:+ String c "" → isspace c = false.
Proof.
  revert t. induction s as [|a s IH]; intros t; cbn [rstrip].
  { by destruct t. }
  destruct (rstrip s) as [|b r] eqn:Hr.
  - destruct (isspace a) eqn:Ha; [by destruct t|].
    destruct t as [|a' [|? ?]]; simpl; [|done|done].
    by intros [= <-].
  - destruct t as [|a' t']; simpl; [done|].
    intros [= _ Hbr]. by apply (IH t').
Qed.

Lemma strip_no_final_newline (s ds : string) : strip s ≠ ds +:+ nl.
Proof. unfold strip, nl. intros H. by apply rstrip_last in H. Qed.

Lemma re_match_sound (sid g : string) :
  re_match sid = Some g →
  ∃ ds, (sid = "CID" +:+ ds ∨ sid = "CID" +:+ ds +:+ nl)
        ∧ ds ≠ "" ∧ all_digits ds = true
        ∧ int_of_digits g = int_of_digits ds.
Proof.
  destruct sid as [|c1 [|c2 [|c3 rest]]]; try done. cbn [re_match].
  destruct (Ascii.eqb_spec c1 "C") as [->|]; [|done].
  destruct (Ascii.eqb_spec c2 "I") as [->|]; [|done].
  destruct (Ascii.eqb_spec c3 "D") as [->|]; [|done].
  intros (ds & Hs & Hne & Hd & Hv)%zeros_group_to_end_sound.
  exists ds. repeat split; try done.
  destruct Hs as [-> | ->]; [by left | by right].
Qed.

Lemma re_match_complete (ds : string) :
  ds ≠ "" → all_digits ds = true →
  ∃ g, re_match ("CID" +:+ ds) = Some g
       ∧ int_of_digits g = int_of_digits ds.
Proof. intros Hne Hd. by apply zeros_group_to_end_complete. Qed.

Lemma int_of_digits_acc_nonneg (l : list ascii) (acc : Z) :
  (0 ≤ acc)%Z → Forall (λ c, is_digit c = true) l →
  (0 ≤ fold_left (λ acc c, 10 * acc + (Z.of_N (N_of_ascii c) - 48)) l acc)%Z.
Proof.
  revert acc. induction l as [|c l IH]; intros acc Hacc Hl; simpl; [done|].
  apply Forall_cons in Hl as [Hc Hl]. apply IH; [|done].
  unfold is_digit in Hc. apply andb_prop in Hc as [H1 _].
  apply N.leb_le in H1. lia.
Qed.

Lemma all_digits_Forall (s : string) :
  all_digits s = true → Forall (λ c, is_digit c = true) (list_ascii_of_string s).
Proof.
  induction s as [|c s IH]; simpl; [constructor|].
  intros [Hc Hs]%andb_prop. constructor; auto.
Qed.

Lemma extract_pubchem_cid_nonneg (s : string) (n : Z) :
  extract_pubchem_cid (CStr s) = Some n → (0 ≤ n)%Z.
Proof.
  unfold extract_pubchem_cid.
  destruct (re_match (strip s)) as [g|] eqn:Hm; [|done]. intros [= <-].
  apply re_match_sound in Hm as (ds & _ & _ & Hd & ->).
  apply int_of_digits_acc_nonneg; [done | by apply all_digits_Forall].
Qed.

(** A CID within 53 bits is stored as it is, whatever the column is. *)
Lemma stored_cid_exact (f : list sider_row) (r : sider_row) (cid : Z) :
  cid_of r = Some cid → (cid ≤ 2 ^ 53)%Z → stored_cid f cid = cid.
Proof.
  intros Hc Hle. unfold stored_cid. destruct (float_column f); [|done].
  apply to_float64_exact. apply extract_pubchem_cid_nonneg in Hc.
  rewrite Z.abs_eq; done.
Qed.

Lemma omap_ext_in {A B : Type} (g1 g2 : A → option B) (l : list A) :
  (∀ x, x ∈ l → g1 x = g2 x) → omap g1 l = omap g2 l.
Proof.
  induction l as [|x l IH]; intros Hg; [done|]. cbn [omap list_omap].
  rewrite (Hg x) by left. rewrite IH; [done|].
  intros y Hy. apply Hg. by right.
Qed.

(** The rows of [edges], when step 1 succeeds: a row for every row of the
    file whose id parses, holding the stored CID, and no other. *)
Lemma elem_of_load_edges (f : list sider_row) (rows : list cid_row)
    (e : cid_row) :
  load_edges f = Some rows →
  e ∈ rows ↔ ∃ r cid, r ∈ f ∧ cid_of r = Some cid
                      ∧ e = edge_of r (stored_cid f cid).
Proof.
  unfold load_edges. destruct (forallb _ _); [|done]. intros [= <-].
  rewrite list_elem_of_omap. split.
  - intros (r & Hr & He). destruct (cid_of r) as [cid|] eqn:Hc; [|done].
    injection He as <-. by exists r, cid.
  - intros (r & cid & Hr & Hc & ->). exists r. by rewrite Hc.
Qed.

(** With CIDs within 53 bits step 1 succeeds and stores every parsed CID
    as it is. *)
Lemma load_edges_exact (f : list sider_row) :
  cids_exact f →
  load_edges f
  = Some (omap (λ r, match cid_of r with
                     | Some cid => Some (edge_of r cid)
                     | None => None
                     end) f).
Proof.
  intros Hex. unfold load_edges.
  rewrite (omap_ext_in _ (λ r, match cid_of r with
                               | Some cid => Some (edge_of r cid)
                               | None => None
                               end)).
  2:{ intros r Hr. destruct (cid_of r) as [cid|] eqn:Hc; [|done].
      by rewrite (stored_cid_exact f r cid Hc (Hex r cid Hr Hc)). }
  destruct (forallb _ _) eqn:Hall; [done|].
  apply not_true_iff_false in Hall. destruct Hall.
  apply forallb_forall. intros e He.
  apply list_elem_of_In, list_elem_of_omap in He as (r & Hr & He).
  destruct (cid_of r) as [cid|] eqn:Hc; [|done]. injection He as <-.
  simpl. apply Z.ltb_lt. specialize (Hex r cid Hr Hc).
  assert (2 ^ 53 < 2 ^ 63)%Z by reflexivity. lia.
Qed.

(** C6. [extract_pubchem_cid] gives 10917 for CID000010917 and 0 for CID0;
    it gives null for ABC123 and for every text that, once stripped, is
    not CID followed by digits, and gives the number the digits spell
    (leading zeros dropped) otherwise. The mapping input holds a row for
    every row of the file whose id parses, with the stored CID, and none
    for a row whose id gives null; with CIDs within the 53 bits of a
    float64 such a row is left out without an error, the other rows being
    kept as they are without it, each with an id that parses to its
    pubchem_cid; and every row of the mapping has an id that parses to
    the CID its pubchem_cid stores. *)
Theorem extract_pubchem_cid_strict :
  extract_pubchem_cid (CStr "CID000010917") = Some 10917%Z
  ∧ extract_pubchem_cid (CStr "CID0") = Some 0%Z
  ∧ extract_pubchem_cid (CStr "ABC123") = None
  ∧ (∀ s, ¬ cid_pattern (strip s) → extract_pubchem_cid (CStr s) = None)
  ∧ (∀ s ds, strip s = "CID" +:+ ds → ds ≠ "" → all_digits ds = true →
       extract_pubchem_cid (CStr s) = Some (int_of_digits ds))
  ∧ (∀ f rows e, load_edges f = Some rows →
       e ∈ rows ↔ ∃ r cid, r ∈ f ∧ cid_of r = Some cid
                           ∧ e = edge_of r (stored_cid f cid))
  ∧ (∀ f1 r f2, cid_of r = None → cids_exact (f1 ++ f2)%list →
       ∃ rows, load_edges (f1 ++ r :: f2)%list = Some rows
               ∧ load_edges (f1 ++ f2)%list = Some rows
               ∧ ∀ e, e ∈ rows →
                   extract_pubchem_cid (CStr (c_stitch_id e))
                   = Some (c_pubchem_cid e))
  ∧ (∀ f rows uc row, load_edges f = Some rows → row ∈ map_full rows uc →
       ∃ cid, extract_pubchem_cid (CStr (mp_stitch_id row)) = Some cid
              ∧ mp_pubchem_cid row = stored_cid f cid
              ∧ ((cid ≤ 2 ^ 53)%Z → mp_pubchem_cid row = cid)).
Proof.
  split; [reflexivity|]. split; [reflexivity|]. split; [reflexivity|].
  split; [|split; [|split; [|split]]].
  - intros s Hno. unfold extract_pubchem_cid.
    destruct (re_match (strip s)) as [g|] eqn:Hm; [|done].
    destruct Hno. apply re_match_sound in Hm as (ds & Hs & Hne & Hd & _).
    destruct Hs as [Hs | Hs]; [by exists ds|].
    destruct (strip_no_final_newline s ("CID" +:+ ds) Hs).
  - intros s ds Hs Hne Hd. unfold extract_pubchem_cid. rewrite Hs.
    destruct (re_match_complete ds Hne Hd) as (g & -> & ->). done.
  - intros f rows e. apply elem_of_load_edges.
  - intros f1 r f2 Hr Hex.
    assert (cids_exact (f1 ++ r :: f2)%list) as Hex'.
    { intros r' cid Hin Hc. apply (Hex r' cid); [|done].
      apply elem_of_app in Hin as [Hin | Hin]; apply elem_of_app;
        [by left|].
      apply elem_of_cons in Hin as [-> | Hin]; [congruence | by right]. }
    eexists. rewrite (load_edges_exact _ Hex'), (load_edges_exact _ Hex).
    rewrite !omap_app. cbn [omap list_omap]. rewrite Hr.
    split; [reflexivity|]. split; [reflexivity|].
    intros e He. rewrite <- omap_app in He.
    apply list_elem_of_omap in He as (r' & _ & He).
    destruct (cid_of r') as [cid|] eqn:Hc; [|done]. by injection He as <-.
  - intros f rows uc row Hload. unfold map_full.
    rewrite elem_of_drop_duplicates, list_elem_of_In, in_flat_map.
    intros (e & He & Hrow). apply in_flat_map in Hrow as (u & _ & Hrow).
    destruct (bool_decide (fst u = c_pubchem_cid e)); [|by destruct Hrow].
    destruct Hrow as [<- | []]. simpl.
    apply list_elem_of_In, (elem_of_load_edges f rows e Hload) in He
      as (r & cid & Hr & Hc & ->).
    exists cid. simpl. split; [done|]. split; [done|].
    intros Hle. by apply (stored_cid_exact f r).
Qed.

Lemma extract_pubchem_cid_strict_witness :
  (∃ rows,
     load_edges ([parsable_row] ++ unparsable_row :: [parsable_row])%list
       = Some rows
     ∧ load_edges ([parsable_row] ++ [parsable_row])%list = Some rows
     ∧ ∀ e, e ∈ rows →
         extract_pubchem_cid (CStr (c_stitch_id e)) = Some (c_pubchem_cid e))
  ∧ extract_pubchem_cid (CStr " CID0042 ") = Some 42%Z.
Proof.
  pose proof extract_pubchem_cid_strict
    as (_ & _ & _ & _ & Hparse & _ & Hdrop & _).
  split.
  - apply Hdrop; [reflexivity|].
    intros r cid Hr Hc. apply list_elem_of_In in Hr. simpl in Hr.
    destruct Hr as [<- | [<- | []]]; injection Hc as <-; done.
  - apply (Hparse " CID0042 " "0042"); [reflexivity | done | reflexivity].
Defined.
End SiderChemblFacts.

(** ** UniProt to Entrez rows (map_uniprot_to_entrez.py) *)
Section UniprotEntrezFacts.
Import Py UniprotEntrez.

(** The ids needed: the stripped, non-missing uniprot cells of the target
    node table. *)
Lemma elem_of_target_uniprots (df : list target_row) (u : string) :
  u ∈ target_uniprots df
  ↔ ∃ r s, r ∈ df ∧ t_uniprot r = CStr s ∧ u = strip s.
Proof.
  unfold target_uniprots. rewrite elem_of_list_to_set, list_elem_of_omap.
  split.
  - intros (r & Hr & Hu). destruct (t_uniprot r) as [s|] eqn:Hs; [|done].
    injection Hu as <-. by exists r, s.
  - intros (r & s & Hr & Hs & ->). exists r. by rewrite Hs.
Qed.

Lemma mapping_app (targets : gset string) (rows1 rows2 : list (list string)) :
  mapping targets (rows1 ++ rows2)
  = (mapping targets rows1 ++ mapping targets rows2)%list.
Proof. unfold mapping. apply flat_map_app. Qed.

Lemma contribution_spec (targets : gset string) (row : list string)
    (p : string * string) :
  p ∈ contribution targets row
  ↔ row = [fst p; "GeneID"; snd p] ∧ fst p ∈ targets.
Proof.
  destruct p as [a b]. unfold contribution, mapping. simpl.
  rewrite app_nil_r.
  destruct row as [|u [|t [|v [|w row]]]];
    try (split; [by intros ?%elem_of_nil | by intros [[=] _]]).
  simpl. destruct (String.eqb_spec t "GeneID") as [->|Hne]; simpl.
  - destruct (bool_decide_reflect (u ∈ targets)) as [Hin|Hnin].
    + rewrite list_elem_of_singleton. split.
      * by intros [= -> ->].
      * by intros [[= -> ->] _].
    + split; [by intros ?%elem_of_nil|].
      intros [[= -> _] Hin]. done.
  - split; [by intros ?%elem_of_nil|]. intros [[= _ -> _] _]. done.
Qed.

Lemma elem_of_mapping (targets : gset string) (rows : list (list string))
    (p : string * string) :
  p ∈ mapping targets rows
  ↔ [fst p; "GeneID"; snd p] ∈ rows ∧ fst p ∈ targets.
Proof.
  induction rows as [|row rows IH].
  { split; [by intros ?%elem_of_nil | by intros [?%elem_of_nil _]]. }
  change (row :: rows) with ([row] ++ rows)%list.
  rewrite mapping_app, elem_of_app, IH.
  change (mapping targets [row]) with (contribution targets row).
  rewrite contribution_spec. simpl. rewrite elem_of_cons.
  split.
  - intros [[-> Hin] | [Hrow Hin]]; auto.
  - intros [[<- | Hrow] Hin]; auto.
Qed.

(** C10. Every row (uniprot, entrez_id) written has its uniprot value in
    the set of stripped uniprot ids of the target node table and comes
    from a line of the dump with exactly the three fields uniprot, GeneID,
    entrez_id; a line with another number of fields or another mapping
    type adds nothing to the output. *)
Theorem uniprot_rows_come_from_geneid_lines (df : list target_row)
    (rows : list (list string)) :
  (∀ u v, (u, v) ∈ main df rows →
     u ∈ target_uniprots df
     ∧ (∃ r s, r ∈ df ∧ t_uniprot r = CStr s ∧ u = strip s)
     ∧ ∃ row, row ∈ rows ∧ length row = 3%nat ∧ row = [u; "GeneID"; v])
  ∧ (∀ rows1 row rows2,
       rows = (rows1 ++ row :: rows2)%list →
       length row ≠ 3%nat ∨ row !! 1%nat ≠ Some "GeneID" →
       main df rows = main df (rows1 ++ rows2)).
Proof.
  split.
  - intros u v. unfold main.
    rewrite elem_of_drop_duplicates, elem_of_mapping. simpl.
    intros [Hrow Hin]. split; [done|]. split.
    + by apply elem_of_target_uniprots.
    + by exists [u; "GeneID"; v].
  - intros rows1 row rows2 -> Hrow. unfold main. f_equal.
    change (row :: rows2) with ([row] ++ rows2)%list.
    rewrite !mapping_app. f_equal.
    change ((mapping (target_uniprots df) [row]
               ++ mapping (target_uniprots df) rows2)%list
            = mapping (target_uniprots df) rows2).
    assert (mapping (target_uniprots df) [row] = []) as ->; [|done].
    change (contribution (target_uniprots df) row = []).
    destruct (contribution (target_uniprots df) row) as [|p l] eqn:Hc; [done|].
    assert (p ∈ contribution (target_uniprots df) row) as Hp
      by (rewrite Hc; left).
    apply contribution_spec in Hp as [-> _].
    destruct Hrow as [Hlen | Hty]; [by destruct Hlen | by destruct Hty].
Qed.

Lemma uniprot_rows_come_from_geneid_lines_witness :
  main one_target
       ([["P23219"; "GeneID"; "5742"]]
        ++ ["P23219"; "Gene_Name"; "PTGS1"] :: [["P23219"; "GeneID"]])
  = main one_target ([["P23219"; "GeneID"; "5742"]] ++ [["P23219"; "GeneID"]]).
Proof.
  pose proof (uniprot_rows_come_from_geneid_lines one_target
                ([["P23219"; "GeneID"; "5742"]]
                 ++ ["P23219"; "Gene_Name"; "PTGS1"] :: [["P23219"; "GeneID"]]))
    as [_ Hskip].
  apply (Hskip [["P23219"; "GeneID"; "5742"]]
               ["P23219"; "Gene_Name"; "PTGS1"] [["P23219"; "GeneID"]]);
    [reflexivity | right; discriminate].
Defined.
End UniprotEntrezFacts.

(** ** Written tables without repeated rows *)
Section WrittenTableFacts.
Import Py.

Lemma NoDup_drop_duplicates_on {A K : Type} `{EqDecision A} `{EqDecision K}
    (key : A → K) (l : list A) :
  NoDup (drop_duplicates_on key l).
Proof.
  induction l as [|y l IH]; simpl; [constructor|].
  constructor; [|by apply NoDup_filter].
  rewrite list_elem_of_filter. tauto.
Qed.

(** The four Hetionet edge tables. *)
Lemma hetionet_edge_tables_NoDup (edges : list Hetionet.edge) :
  NoDup (Hetionet.E_DRUG_TARGETS (Hetionet.written_edges edges))
  ∧ NoDup (Hetionet.E_DRUG_TREATS (Hetionet.written_edges edges))
  ∧ NoDup (Hetionet.E_GENE_DISEASE (Hetionet.written_edges edges))
  ∧ NoDup (Hetionet.E_DRUG_SE (Hetionet.written_edges edges)).
Proof. repeat split; apply NoDup_drop_duplicates. Qed.

(** The ChEMBL drug node and drug-target edge tables. *)
Lemma chembl_drugs_edges_NoDup (a : Chembl.args) (db : Chembl.database)
    (out : Chembl.outputs) :
  Chembl.main a db = Some out →
  NoDup (Chembl.out_drugs out) ∧ NoDup (Chembl.out_edges out).
Proof.
  unfold Chembl.main.
  destruct (Chembl.dm_td_join db); [|done].
  destruct (Chembl.dm_md_join db); [|done].
  intros [= <-]. split; apply NoDup_drop_duplicates.
Qed.

(** The ChEMBL to DrugBank mapping and its residual. *)
Lemma chembl_drugbank_tables_NoDup (drugs_csv : list ChemblDrugbank.drug_row)
    (unichem : ChemblDrugbank.unichem_file)
    (m : list ChemblDrugbank.merged_row) (missing : list string) :
  ChemblDrugbank.main drugs_csv unichem = Some (m, missing) →
  NoDup m ∧ NoDup missing.
Proof.
  unfold ChemblDrugbank.main.
  destruct (ChemblDrugbank.load_map unichem); [|done].
  intros [= <- <-]. split; [apply NoDup_drop_duplicates_on|].
  apply NoDup_sorted, NoDup_elements.
Qed.

(** The STITCH to ChEMBL mapping. *)
Lemma sider_chembl_map_full_NoDup (edges : list SiderChembl.cid_row)
    (uc : list (Z * string)) :
  NoDup (SiderChembl.map_full edges uc).
Proof. apply NoDup_drop_duplicates. Qed.

(** The UniProt to Entrez mapping. *)
Lemma uniprot_entrez_NoDup (df : list UniprotEntrez.target_row)
    (rows : list (list string)) :
  NoDup (UniprotEntrez.main df rows).
Proof. apply NoDup_drop_duplicates. Qed.

(** The SIDER tables: the left merge of deduplicated edges with
    deduplicated frequencies has no repeated row. *)
Lemma sider_tables_NoDup {value : Type} `{EqDecision value}
    (to_str : value → string) (nan : value)
    (all_se : list (@Sider.all_se_row value))
    (freq : list (@Sider.freq_row value)) :
  NoDup (fst (Sider.main to_str nan all_se freq))
  ∧ NoDup (snd (Sider.main to_str nan all_se freq)).
Proof.
  split; [apply NoDup_drop_duplicates|]. simpl. unfold Sider.edges_freq.
  change (flat_map ?f ?l) with (l ≫= f).
  set (fq := Sider.freq_kept to_str freq).
  assert (∀ e y,
            y ∈ match filter (λ f, (Sider.stitch_id f, Sider.umls_cui f) = e) fq with
                | [] => [{| Sider.stitch_id := fst e; Sider.umls_cui := snd e;
                            Sider.frequency_lower := nan;
                            Sider.frequency_upper := nan |}]
                | fs => fs
                end →
            (Sider.stitch_id y, Sider.umls_cui y) = e) as Hkey.
  { intros e y.
    destruct (filter _ fq) as [|f fs] eqn:Hf.
    - intros ->%list_elem_of_singleton. by destruct e.
    - rewrite <- Hf. by intros [? _]%list_elem_of_filter. }
  apply NoDup_bind.
  - intros e1 e2 y _ _ H1 H2.
    by rewrite <- (Hkey e1 y H1), <- (Hkey e2 y H2).
  - intros e _. destruct (filter _ fq) as [|f fs] eqn:Hf.
    + apply NoDup_singleton.
    + rewrite <- Hf. apply NoDup_filter, NoDup_drop_duplicates.
  - apply NoDup_drop_duplicates.
Qed.
End WrittenTableFacts.

(** ** The node and edge loops as a whole (hetionet_extract_to_csv.py) *)
Section HetionetLoopFacts.
Import Py Hetionet.
Local Open Scope list_scope.

(** Case analysis on every test of a loop body. *)
Ltac split_tests :=
  repeat match goal with
         | |- context [if ?b then _ else _] => destruct b eqn:?
         end.

Lemma length_drop_duplicates {A : Type} `{EqDecision A} (l : list A) :
  (length (drop_duplicates l) ≤ length l)%nat.
Proof.
  induction l as [|x l IH]; simpl; [done|].
  pose proof (length_filter (λ y, y ≠ x) (drop_duplicates l)). lia.
Qed.

(** One iteration adds to each table what it adds to an empty one. *)
Lemma process_edge_appends (e : edge) (T : tables) :
  E_DRUG_TARGETS (process_edge e T)
    = E_DRUG_TARGETS T ++ E_DRUG_TARGETS (process_edge e no_edges)
  ∧ E_DRUG_TREATS (process_edge e T)
    = E_DRUG_TREATS T ++ E_DRUG_TREATS (process_edge e no_edges)
  ∧ E_GENE_DISEASE (process_edge e T)
    = E_GENE_DISEASE T ++ E_GENE_DISEASE (process_edge e no_edges)
  ∧ E_DRUG_SE (process_edge e T)
    = E_DRUG_SE T ++ E_DRUG_SE (process_edge e no_edges).
Proof.
  unfold process_edge.
  destruct (source_id e) as [sk si], (target_id e) as [tk ti].
  split_tests; simpl; rewrite ?app_nil_r; done.
Qed.

Lemma process_edge_total_rows (e : edge) (T : tables) :
  (total_rows T ≤ total_rows (process_edge e T) ≤ S (total_rows T))%nat.
Proof.
  unfold process_edge, total_rows.
  destruct (source_id e) as [sk si], (target_id e) as [tk ti].
  split_tests; simpl; rewrite ?length_app; simpl; lia.
Qed.

Lemma fold_process_edge_total_rows (edges : list edge) (T : tables) :
  (total_rows (fold_left (λ T e, process_edge e T) edges T)
   ≤ total_rows T + length edges)%nat.
Proof.
  revert T. induction edges as [|e edges IH]; intros T; simpl; [lia|].
  pose proof (IH (process_edge e T)).
  pose proof (process_edge_total_rows e T). lia.
Qed.

(** Every edge of the document gives at most one row, in one table: the
    four accumulators, and the four written tables, hold together at most
    as many rows as the document has edges. *)
Theorem edge_rows_bounded (edges : list edge) :
  (total_rows (extract_edges edges) ≤ length edges)%nat
  ∧ (total_rows (written_edges edges) ≤ length edges)%nat.
Proof.
  pose proof (fold_process_edge_total_rows edges no_edges) as H.
  change (total_rows no_edges) with 0%nat in H.
  split; [exact H|].
  unfold written_edges, total_rows in *. simpl.
  fold (extract_edges edges) in H.
  pose proof (length_drop_duplicates (E_DRUG_TARGETS (extract_edges edges))).
  pose proof (length_drop_duplicates (E_DRUG_TREATS (extract_edges edges))).
  pose proof (length_drop_duplicates (E_GENE_DISEASE (extract_edges edges))).
  pose proof (length_drop_duplicates (E_DRUG_SE (extract_edges edges))).
  lia.
Qed.

Lemma fold_process_edge_app (edges : list edge) (T : tables) :
  let R := fold_left (λ T e, process_edge e T) edges T in
  E_DRUG_TARGETS R = E_DRUG_TARGETS T ++ E_DRUG_TARGETS (extract_edges edges)
  ∧ E_DRUG_TREATS R = E_DRUG_TREATS T ++ E_DRUG_TREATS (extract_edges edges)
  ∧ E_GENE_DISEASE R = E_GENE_DISEASE T ++ E_GENE_DISEASE (extract_edges edges)
  ∧ E_DRUG_SE R = E_DRUG_SE T ++ E_DRUG_SE (extract_edges edges).
Proof.
  revert T. unfold extract_edges.
  induction edges as [|e edges IH]; intros T; simpl.
  { by rewrite !app_nil_r. }
  destruct (IH (process_edge e T)) as (H1 & H2 & H3 & H4).
  destruct (IH (process_edge e no_edges)) as (G1 & G2 & G3 & G4).
  destruct (process_edge_appends e T) as (P1 & P2 & P3 & P4).
  rewrite H1, H2, H3, H4, G1, G2, G3, G4, P1, P2, P3, P4.
  by rewrite !app_assoc.
Qed.

(** The edge loop over a document cut in two is the loop over the first
    part followed by the loop over the second: each of the four
    accumulators is the concatenation of the two runs. *)
Theorem extract_edges_app (edges1 edges2 : list edge) :
  E_DRUG_TARGETS (extract_edges (edges1 ++ edges2))
    = E_DRUG_TARGETS (extract_edges edges1)
      ++ E_DRUG_TARGETS (extract_edges edges2)
  ∧ E_DRUG_TREATS (extract_edges (edges1 ++ edges2))
    = E_DRUG_TREATS (extract_edges edges1)
      ++ E_DRUG_TREATS (extract_edges edges2)
  ∧ E_GENE_DISEASE (extract_edges (edges1 ++ edges2))
    = E_GENE_DISEASE (extract_edges edges1)
      ++ E_GENE_DISEASE (extract_edges edges2)
  ∧ E_DRUG_SE (extract_edges (edges1 ++ edges2))
    = E_DRUG_SE (extract_edges edges1) ++ E_DRUG_SE (extract_edges edges2).
Proof.
  assert (extract_edges (edges1 ++ edges2)
          = fold_left (λ T e, process_edge e T) edges2 (extract_edges edges1))
    as -> by apply fold_left_app.
  apply (fold_process_edge_app edges2).
Qed.
(** Facts read off the tests a case analysis has recorded. *)
Ltac read_tests :=
  repeat match goal with
         | H : _ && _ = true |- _ => apply andb_prop in H as [? ?]
         | H : _ || _ = true |- _ => apply orb_prop in H as [? | ?]
         | H : String.eqb _ _ = true |- _ => apply String.eqb_eq in H
         | H : str_in _ _ = true |- _ => unfold str_in in H; simpl in H
         | H : false = true |- _ => discriminate H
         end.

(** An edge whose direction tag, once lowered and stripped, is neither
    forward nor both adds no row to any table, whatever its relation and
    endpoint kinds are; this holds for the symmetric associates relation
    too. *)
Theorem edge_direction_gate (e : edge) (T : tables) :
  direc e ≠ "forward" → direc e ≠ "both" → process_edge e T = T.
Proof.
  intros Hf%String.eqb_neq Hb%String.eqb_neq. unfold process_edge, str_in.
  destruct (source_id e) as [sk si], (target_id e) as [tk ti].
  simpl. rewrite Hf, Hb. simpl. by rewrite !andb_false_r.
Qed.

Lemma edge_direction_gate_witness :
  process_edge
    {| kind := Some "associates"; direction := Some "reverse";
       source_id := ("Gene", JInt 7157);
       target_id := ("Disease", JStr "DOID:1612"); data := None |}
    no_edges
  = no_edges.
Proof. apply edge_direction_gate; discriminate. Defined.

(** An edge whose relation kind, once lowered and stripped, is none of
    binds, treats, associates and causes adds no row to any table. *)
Theorem edge_unknown_kind_dropped (e : edge) (T : tables) :
  ekind e ∉ ["binds"; "treats"; "associates"; "causes"] →
  process_edge e T = T.
Proof.
  intros Hk. unfold process_edge.
  destruct (source_id e) as [sk si], (target_id e) as [tk ti].
  destruct (String.eqb_spec (ekind e) "binds") as [H|_];
    [destruct Hk; rewrite H; repeat constructor|].
  destruct (String.eqb_spec (ekind e) "treats") as [H|_];
    [destruct Hk; rewrite H; repeat constructor|].
  destruct (String.eqb_spec (ekind e) "associates") as [H|_];
    [destruct Hk; rewrite H; repeat constructor|].
  destruct (String.eqb_spec (ekind e) "causes") as [H|_];
    [destruct Hk; rewrite H; repeat constructor|].
  reflexivity.
Qed.

Lemma edge_unknown_kind_dropped_witness :
  process_edge
    {| kind := Some "regulates"; direction := Some "forward";
       source_id := ("Gene", JInt 7157); target_id := ("Gene", JInt 1);
       data := None |}
    no_edges
  = no_edges.
Proof.
  apply edge_unknown_kind_dropped. vm_compute.
  intros H. repeat (apply elem_of_cons in H as [H | H]; [discriminate H|]).
  by apply elem_of_nil in H.
Defined.

Lemma extract_edges_cons (e : edge) (edges : list edge) :
  E_DRUG_TARGETS (extract_edges (e :: edges))
    = E_DRUG_TARGETS (process_edge e no_edges)
      ++ E_DRUG_TARGETS (extract_edges edges)
  ∧ E_DRUG_TREATS (extract_edges (e :: edges))
    = E_DRUG_TREATS (process_edge e no_edges)
      ++ E_DRUG_TREATS (extract_edges edges)
  ∧ E_GENE_DISEASE (extract_edges (e :: edges))
    = E_GENE_DISEASE (process_edge e no_edges)
      ++ E_GENE_DISEASE (extract_edges edges)
  ∧ E_DRUG_SE (extract_edges (e :: edges))
    = E_DRUG_SE (process_edge e no_edges) ++ E_DRUG_SE (extract_edges edges).
Proof. apply (fold_process_edge_app edges (process_edge e no_edges)). Qed.

Lemma elem_of_gene_disease (edges : list edge) (row : gene_disease_row) :
  row ∈ E_GENE_DISEASE (extract_edges edges)
  ↔ ∃ e, e ∈ edges ∧ row ∈ E_GENE_DISEASE (process_edge e no_edges).
Proof.
  induction edges as [|e edges IH].
  { split; [by intros ?%elem_of_nil | by intros (? & ?%elem_of_nil & _)]. }
  destruct (extract_edges_cons e edges) as (_ & _ & -> & _).
  rewrite elem_of_app, IH. split.
  - intros [H | (e' & He' & H)]; [exists e | exists e']; split; try done;
      [left | by right].
  - intros (e' & [-> | He']%elem_of_cons & H); [by left | right; eauto].
Qed.

Lemma elem_of_canonical_rows (r : asymmetric) (edges : list edge)
    (row : string * string * string) :
  row ∈ canonical_rows r (extract_edges edges)
  ↔ ∃ e, e ∈ edges ∧ row ∈ canonical_rows r (process_edge e no_edges).
Proof.
  induction edges as [|e edges IH].
  { split; [|by intros (? & ?%elem_of_nil & _)].
    destruct r; by intros ?%elem_of_nil. }
  assert (canonical_rows r (extract_edges (e :: edges))
          = canonical_rows r (process_edge e no_edges)
            ++ canonical_rows r (extract_edges edges)) as ->.
  { destruct (extract_edges_cons e edges) as (H1 & H2 & _ & H4).
    destruct r; simpl; rewrite ?H1, ?H2, ?H4; apply map_app. }
  rewrite elem_of_app, IH. split.
  - intros [H | (e' & He' & H)]; [exists e | exists e']; split; try done;
      [left | by right].
  - intros (e' & [-> | He']%elem_of_cons & H); [by left | right; eauto].
Qed.

Lemma canonical_rows_written (r : asymmetric) (edges : list edge)
    (row : string * string * string) :
  row ∈ canonical_rows r (written_edges edges)
  ↔ row ∈ canonical_rows r (extract_edges edges).
Proof.
  destruct r; simpl; rewrite !list_elem_of_In, !in_map_iff;
    split; intros (x & Hx & Hin); exists x; split; try done;
    rewrite <- list_elem_of_In in *; by apply elem_of_drop_duplicates.
Qed.

(** The written gene-disease table holds exactly the rows (id of the Gene
    endpoint, id of the Disease endpoint, evidence) of the associates
    edges with direction both or forward that join a Gene and a Disease,
    in either order: the entrez_id column never holds a Disease id, nor
    the doid column a Gene id. *)
Theorem gene_disease_rows_exact (edges : list edge) (row : gene_disease_row) :
  row ∈ E_GENE_DISEASE (written_edges edges)
  ↔ ∃ e g d,
      e ∈ edges ∧ ekind e = "associates"
      ∧ (direc e = "both" ∨ direc e = "forward")
      ∧ ((source_id e = ("Gene", g) ∧ target_id e = ("Disease", d))
         ∨ (source_id e = ("Disease", d) ∧ target_id e = ("Gene", g)))
      ∧ row = {| gd_entrez_id := str g; gd_doid := str d;
                 gd_evidence := ev e |}.
Proof.
  unfold written_edges. simpl.
  rewrite elem_of_drop_duplicates, elem_of_gene_disease. split.
  - intros (e & He & Hrow). revert Hrow. unfold process_edge.
    destruct (source_id e) as [sk si] eqn:Hs, (target_id e) as [tk ti] eqn:Ht.
    split_tests; simpl; intros Hrow;
      try (by apply elem_of_nil in Hrow);
      apply list_elem_of_singleton in Hrow; read_tests; subst;
      exists e; [exists si, ti | exists si, ti | exists ti, si
                 | exists ti, si]; auto 10.
  - intros (e & g & d & He & Hk & Hd & Hst & ->). exists e. split; [done|].
    rewrite (process_edge_associates e no_edges Hk Hd).
    destruct Hst as [[-> ->] | [-> ->]]; simpl; left.
Qed.

(** The written table of each asymmetric relation holds exactly the rows
    (id of the Compound endpoint, id of the object endpoint, evidence) of
    the edges of that relation listed Compound first with direction forward
    or both, or listed object first with direction both. *)
Theorem asymmetric_rows_exact (r : asymmetric) (edges : list edge)
    (s o evd : string) :
  (s, o, evd) ∈ canonical_rows r (written_edges edges)
  ↔ ∃ e c g,
      e ∈ edges ∧ ekind e = relation_name r
      ∧ ((source_id e = ("Compound", c) ∧ target_id e = (object_kind r, g)
          ∧ (direc e = "forward" ∨ direc e = "both"))
         ∨ (source_id e = (object_kind r, g) ∧ target_id e = ("Compound", c)
            ∧ direc e = "both"))
      ∧ s = str c ∧ o = str g ∧ evd = ev e.
Proof.
  rewrite canonical_rows_written, elem_of_canonical_rows. split.
  - intros (e & He & Hrow). revert Hrow. unfold process_edge.
    destruct (source_id e) as [sk si] eqn:Hs, (target_id e) as [tk ti] eqn:Ht.
    destruct r; split_tests; simpl; intros Hrow;
      try (by apply elem_of_nil in Hrow);
      apply list_elem_of_singleton in Hrow; injection Hrow as -> -> ->;
      read_tests; subst; exists e;
      first [ exists si, ti; by auto 12 | exists ti, si; by auto 12 ].
  - intros (e & c & g & He & Hk & Hst & -> & -> & ->). exists e.
    split; [done|]. rewrite (process_edge_asymmetric r e no_edges Hk).
    destruct Hst as [(-> & -> & Hd) | (-> & -> & ->)]; cbn [fst snd].
    + assert (str_in (direc e) ["forward"; "both"] = true) as ->
        by (by destruct Hd as [-> | ->]).
      rewrite !String.eqb_refl. destruct r; simpl; left.
    + rewrite !String.eqb_refl. destruct r; simpl; left.
Qed.

Lemma sorted_Permutation (l l' : list string) :
  l ≡ₚ l' → sorted l = sorted l'.
Proof.
  intros Hp. unfold sorted.
  apply (StronglySorted_unique String.le);
    [apply StronglySorted_merge_sort; apply _
    |apply StronglySorted_merge_sort; apply _|].
  by rewrite !merge_sort_Permutation.
Qed.

(** The evidence read from a "sources" list does not depend on the order
    of the list: two payloads without a string "source" whose "sources"
    lists hold the same texts in any order give the same evidence
    string. *)
Theorem evidence_sources_order_free (kv kv' : list (string * json))
    (l l' : list json) :
  ¬ has_source_string kv → ¬ has_source_string kv' →
  dict_get "sources" kv = Some (JArr l) →
  dict_get "sources" kv' = Some (JArr l') →
  map str l ≡ₚ map str l' →
  evidence_string (JObj kv) = evidence_string (JObj kv').
Proof.
  intros Hno Hno' Hl Hl' Hp.
  rewrite (evidence_string_object kv (dict_get_nonempty _ _ _ Hl)), Hl.
  rewrite (evidence_string_object kv' (dict_get_nonempty _ _ _ Hl')), Hl'.
  rewrite (sorted_Permutation _ _ Hp).
  destruct (dict_get "source" kv) as [[| | |x| |]|] eqn:Hs;
    try (destruct Hno; by exists x);
    destruct (dict_get "source" kv') as [[| | |y| |]|] eqn:Hs';
    try (destruct Hno'; by exists y); reflexivity.
Qed.

Lemma evidence_sources_order_free_witness :
  evidence_string
    (JObj [("sources", JArr [JStr "SIDER"; JInt 4; JStr "DrugBank"])])
  = evidence_string
      (JObj [("pmids", JArr []);
             ("sources", JArr [JStr "DrugBank"; JStr "SIDER"; JStr "4"])]).
Proof.
  apply (evidence_sources_order_free _ _
           [JStr "SIDER"; JInt 4; JStr "DrugBank"]
           [JStr "DrugBank"; JStr "SIDER"; JStr "4"]);
    try reflexivity; try (intros [s Hs]; discriminate Hs).
  apply (Permutation_app_comm ["SIDER"; "4"] ["DrugBank"]).
Defined.

Lemma rows_of_kind_cons (k : string) (n : node) (nodes : list node) :
  rows_of_kind k (n :: nodes)
  = (if String.eqb (n_kind n) k
     then [(str (n_identifier n),
            match n_name n with Some v => v | None => JStr "" end)]
     else [])
    ++ rows_of_kind k nodes.
Proof.
  unfold rows_of_kind. rewrite filter_cons.
  destruct (String.eqb_spec (n_kind n) k) as [Hk|Hk].
  - by rewrite decide_True.
  - by rewrite decide_False.
Qed.

Lemma fold_process_node (nodes : list node) (N : node_tables) :
  let R := fold_left (λ N n, process_node n N) nodes N in
  compound_rows R = compound_rows N ++ rows_of_kind "Compound" nodes
  ∧ gene_rows R = gene_rows N ++ rows_of_kind "Gene" nodes
  ∧ disease_rows R = disease_rows N ++ rows_of_kind "Disease" nodes
  ∧ se_rows R = se_rows N ++ rows_of_kind "Side Effect" nodes.
Proof.
  revert N. induction nodes as [|n nodes IH]; intros N; simpl.
  { unfold rows_of_kind. simpl. by rewrite !app_nil_r. }
  destruct (IH (process_node n N)) as (H1 & H2 & H3 & H4).
  rewrite H1, H2, H3, H4, !rows_of_kind_cons. clear.
  unfold process_node, KEEP_KINDS, str_in. simpl.
  destruct (String.eqb (n_kind n) "Compound") eqn:H1;
    [apply String.eqb_eq in H1; rewrite ?H1; simpl; by rewrite <- !app_assoc|].
  destruct (String.eqb (n_kind n) "Gene") eqn:H2;
    [apply String.eqb_eq in H2; rewrite ?H2; simpl; by rewrite <- !app_assoc|].
  destruct (String.eqb (n_kind n) "Disease") eqn:H3;
    [apply String.eqb_eq in H3; rewrite ?H3; simpl; by rewrite <- !app_assoc|].
  destruct (String.eqb (n_kind n) "Side Effect") eqn:H4;
    [apply String.eqb_eq in H4; rewrite ?H4; simpl; by rewrite <- !app_assoc|].
  done.
Qed.

(** The node loop sorts the nodes by kind and keeps nothing else: each of
    the four accumulators holds exactly the rows (identifier as text,
    name, the empty text when the name is missing) of the nodes of its
    kind, in document order; nodes of any other kind add no row. *)
Theorem node_tables_by_kind (nodes : list node) :
  compound_rows (extract_nodes nodes) = rows_of_kind "Compound" nodes
  ∧ gene_rows (extract_nodes nodes) = rows_of_kind "Gene" nodes
  ∧ disease_rows (extract_nodes nodes) = rows_of_kind "Disease" nodes
  ∧ se_rows (extract_nodes nodes) = rows_of_kind "Side Effect" nodes.
Proof. apply (fold_process_node nodes no_nodes). Qed.

End HetionetLoopFacts.

(** ** Schema, phase filter and table links (extract_chembl_sqlite_cli.py) *)
Section ChemblTableFacts.
Import Py Chembl.
Local Open Scope list_scope.

(** [main] raises its RuntimeError exactly when the column names offer no
    join between drug_mechanism and target_dictionary (neither tid on both
    sides, nor target_chembl_id against chembl_id or target_chembl_id) or
    none between drug_mechanism and molecule_dictionary (neither molregno on
    both sides, nor molecule_chembl_id against chembl_id); the rows and the
    arguments play no part. *)
Theorem main_fails_iff_no_join (a : args) (db : database) :
  main a db = None
  ↔ (¬ ("tid" ∈ dm_cols db ∧ "tid" ∈ td_cols db)
     ∧ ¬ ("target_chembl_id" ∈ dm_cols db
          ∧ ("chembl_id" ∈ td_cols db ∨ "target_chembl_id" ∈ td_cols db)))
    ∨ (¬ ("molregno" ∈ dm_cols db ∧ "molregno" ∈ md_cols db)
       ∧ ¬ ("molecule_chembl_id" ∈ dm_cols db ∧ "chembl_id" ∈ md_cols db)).
Proof.
  unfold main, dm_td_join, dm_md_join.
  destruct (bool_decide_reflect ("tid" ∈ dm_cols db));
    destruct (bool_decide_reflect ("tid" ∈ td_cols db));
    destruct (bool_decide_reflect ("target_chembl_id" ∈ dm_cols db));
    destruct (bool_decide_reflect ("chembl_id" ∈ td_cols db));
    destruct (bool_decide_reflect ("target_chembl_id" ∈ td_cols db));
    destruct (bool_decide_reflect ("molregno" ∈ dm_cols db));
    destruct (bool_decide_reflect ("molregno" ∈ md_cols db));
    destruct (bool_decide_reflect ("molecule_chembl_id" ∈ dm_cols db));
    destruct (bool_decide_reflect ("chembl_id" ∈ md_cols db));
    simpl; split; first [discriminate | tauto].
Qed.

Lemma where_phase_nested (md : md_row) :
  (where_phase Phase4 md = true → where_phase Phase1to4 md = true)
  ∧ (where_phase Phase1to4 md = true → where_phase PhaseAll md = true).
Proof.
  split; [|done]. simpl.
  destruct (md_max_phase md) as [v|]; simpl; [|done].
  rewrite bool_decide_eq_true. by intros [= ->].
Qed.

Lemma where_phase_4 (md : md_row) :
  where_phase Phase4 md = true → md_max_phase md = Some 4.
Proof.
  simpl. destruct (md_max_phase md) as [v|]; simpl; [|done].
  rewrite bool_decide_eq_true. by intros [= ->].
Qed.

Lemma elem_of_q_edges (a : args) (db : database) (pmd : dm_md_pred)
    (ptd : dm_td_pred) (row : edge_row) :
  row ∈ q_edges a db pmd ptd
  ↔ ∃ dm md td tc cs,
      dm ∈ drug_mechanism db ∧ md ∈ molecule_dictionary db
      ∧ td ∈ target_dictionary db ∧ tc ∈ target_components db
      ∧ cs ∈ component_sequences db
      ∧ on_dm_md pmd md dm = true ∧ on_dm_td ptd td dm = true
      ∧ sql_eq (tc_tid tc) (td_tid td) = true
      ∧ sql_eq (cs_component_id cs) (tc_component_id tc) = true
      ∧ not_null (md_chembl_id md) = true ∧ not_null (cs_accession cs) = true
      ∧ where_phase (phase a) md = true
      ∧ row = {| chembl_id := md_chembl_id md; uniprot := cs_accession cs;
                 mechanism := dm_mechanism_of_action dm;
                 action_type := dm_action_type dm |}.
Proof.
  unfold q_edges. rewrite elem_of_drop_duplicates, list_elem_of_In.
  rewrite in_flat_map. split.
  - intros (dm & Hdm & H). apply in_flat_map in H as (md & Hmd & H).
    destruct (on_dm_md pmd md dm) eqn:E1; [|done].
    apply in_flat_map in H as (td & Htd & H).
    destruct (on_dm_td ptd td dm) eqn:E2; [|done].
    apply in_flat_map in H as (tc & Htc & H).
    destruct (sql_eq (tc_tid tc) (td_tid td)) eqn:E3; [|done].
    apply in_flat_map in H as (cs & Hcs & H).
    destruct (sql_eq (cs_component_id cs) (tc_component_id tc)
              && not_null (md_chembl_id md) && not_null (cs_accession cs)
              && where_phase (phase a) md) eqn:E4; [|done].
    destruct H as [<- | []].
    apply andb_prop in E4 as [E4 E7]. apply andb_prop in E4 as [E4 E6].
    apply andb_prop in E4 as [E4 E5].
    exists dm, md, td, tc, cs. rewrite !list_elem_of_In. auto 20.
  - intros (dm & md & td & tc & cs & Hdm & Hmd & Htd & Htc & Hcs
            & E1 & E2 & E3 & E4 & E5 & E6 & E7 & ->).
    rewrite !list_elem_of_In in *.
    exists dm. split; [done|]. apply in_flat_map. exists md. split; [done|].
    rewrite E1. apply in_flat_map. exists td. split; [done|].
    rewrite E2. apply in_flat_map. exists tc. split; [done|].
    rewrite E3. apply in_flat_map. exists cs. split; [done|].
    rewrite E4, E5, E6, E7. by left.
Qed.

(** The three phase options give nested tables: every drug row and every
    edge row written under phase 4 is written under phase 1-4, and every
    row written under phase 1-4 is written under phase all. *)
Theorem phase_tables_nested (fill : bool) (db : database) (out4 : outputs) :
  main {| phase := Phase4; fill_synonyms := fill |} db = Some out4 →
  ∃ out14 outall,
    main {| phase := Phase1to4; fill_synonyms := fill |} db = Some out14
    ∧ main {| phase := PhaseAll; fill_synonyms := fill |} db = Some outall
    ∧ out_drugs out4 ⊆ out_drugs out14 ∧ out_drugs out14 ⊆ out_drugs outall
    ∧ out_edges out4 ⊆ out_edges out14 ∧ out_edges out14 ⊆ out_edges outall.
Proof.
  unfold main. destruct (dm_td_join db) as [ptd|]; [|done].
  destruct (dm_md_join db) as [pmd|]; [|done]. intros [= <-].
  eexists _, _. split; [reflexivity|]. split; [reflexivity|]. simpl.
  repeat split; intros row; unfold drugs;
    rewrite ?elem_of_drop_duplicates, ?elem_of_q_drugs, ?elem_of_q_edges.
  - intros (md & syn & Hmd & Hsyn & [Hc Hw]%andb_prop & ->). exists md, syn.
    split; [done|]. split; [done|]. split; [|done].
    apply andb_true_intro. split; [done|]. by apply where_phase_nested.
  - intros (md & syn & Hmd & Hsyn & [Hc Hw]%andb_prop & ->). exists md, syn.
    split; [done|]. split; [done|]. split; [|done]. by rewrite Hc.
  - intros (dm & md & td & tc & cs & H). exists dm, md, td, tc, cs.
    destruct H as (?&?&?&?&?&?&?&?&?&?&?&Hw&?).
    repeat (split; [done|]). split; [|done]. by apply where_phase_nested.
  - intros (dm & md & td & tc & cs & H). exists dm, md, td, tc, cs.
    destruct H as (?&?&?&?&?&?&?&?&?&?&?&Hw&?).
    repeat (split; [done|]). done.
Qed.

Lemma phase_tables_nested_witness :
  ∃ out14 outall,
    main {| phase := Phase1to4; fill_synonyms := true |} shared_component_db
      = Some out14
    ∧ main {| phase := PhaseAll; fill_synonyms := true |} shared_component_db
      = Some outall
    ∧ [(Some "CHEMBL25", Some "ASPIRIN")] ⊆ out_drugs out14
    ∧ out_drugs out14 ⊆ out_drugs outall
    ∧ [{| chembl_id := Some "CHEMBL25"; uniprot := Some "P1";
          mechanism := Some "Cyclooxygenase inhibitor";
          action_type := Some "INHIBITOR" |}] ⊆ out_edges out14
    ∧ out_edges out14 ⊆ out_edges outall.
Proof.
  apply (phase_tables_nested true shared_component_db
           {| out_drugs := [(Some "CHEMBL25", Some "ASPIRIN")];
              out_edges :=
                [{| chembl_id := Some "CHEMBL25"; uniprot := Some "P1";
                    mechanism := Some "Cyclooxygenase inhibitor";
                    action_type := Some "INHIBITOR" |}];
              out_targets := [(Some "P1", ""); (Some "P1", "")] |}).
  vm_compute. reflexivity.
Defined.

(** Under the phase 4 filter every drug row and every edge row belongs to
    a molecule whose max_phase is 4: a molecule of another phase, or with
    no phase, gives no row of its own. *)
Theorem phase4_rows_have_max_phase_4 (fill : bool) (db : database)
    (out : outputs) :
  main {| phase := Phase4; fill_synonyms := fill |} db = Some out →
  (∀ row, row ∈ out_drugs out →
     ∃ md, md ∈ molecule_dictionary db ∧ md_chembl_id md = fst row
           ∧ md_max_phase md = Some 4)
  ∧ (∀ row, row ∈ out_edges out →
       ∃ md, md ∈ molecule_dictionary db ∧ md_chembl_id md = chembl_id row
             ∧ md_max_phase md = Some 4).
Proof.
  unfold main. destruct (dm_td_join db) as [ptd|]; [|done].
  destruct (dm_md_join db) as [pmd|]; [|done]. intros [= <-]. simpl.
  split; intros row; unfold drugs;
    rewrite ?elem_of_drop_duplicates, ?elem_of_q_drugs, ?elem_of_q_edges.
  - intros (md & syn & Hmd & Hsyn & [Hc Hw]%andb_prop & ->). exists md.
    split; [done|]. split; [done|]. by apply where_phase_4.
  - intros (dm & md & td & tc & cs & H).
    destruct H as (?&?&?&?&?&?&?&?&?&?&?&Hw&->).
    exists md. split; [done|]. split; [done|]. by apply where_phase_4.
Qed.

Lemma phase4_rows_have_max_phase_4_witness :
  ∃ md, md ∈ molecule_dictionary shared_component_db
        ∧ md_chembl_id md = Some "CHEMBL25" ∧ md_max_phase md = Some 4.
Proof.
  apply (proj1 (phase4_rows_have_max_phase_4 true shared_component_db
           {| out_drugs := [(Some "CHEMBL25", Some "ASPIRIN")];
              out_edges :=
                [{| chembl_id := Some "CHEMBL25"; uniprot := Some "P1";
                    mechanism := Some "Cyclooxygenase inhibitor";
                    action_type := Some "INHIBITOR" |}];
              out_targets := [(Some "P1", ""); (Some "P1", "")] |}
           ltac:(vm_compute; reflexivity))
          (Some "CHEMBL25", Some "ASPIRIN")).
  left.
Defined.

Lemma merge_left_keys (left : list (option string))
    (right : list (option string * option string)) (u : option string) :
  u ∈ map fst (merge_left left right) ↔ u ∈ left.
Proof.
  unfold merge_left. rewrite list_elem_of_In, in_map_iff. split.
  - intros ([u' n] & <- & Hin). apply in_flat_map in Hin as (k & Hk & Hin).
    apply list_elem_of_In in Hk.
    destruct (filter (λ r, fst r = k) right) as [|r rs] eqn:Hf.
    + destruct Hin as [[= <- _] | []]. done.
    + rewrite <- Hf in Hin. apply list_elem_of_In in Hin.
      apply list_elem_of_filter in Hin as [<- _]. done.
  - intros Hu.
    destruct (filter (λ r, fst r = u) right) as [|r rs] eqn:Hf.
    + exists (u, None). split; [done|]. apply in_flat_map. exists u.
      split; [by apply list_elem_of_In|]. rewrite Hf. by left.
    + assert (r ∈ filter (λ r, fst r = u) right) as Hr by (rewrite Hf; left).
      exists r. split; [by apply list_elem_of_filter in Hr as [? _]|].
      apply in_flat_map. exists u. split; [by apply list_elem_of_In|].
      rewrite Hf. by left.
Qed.

(** The target node table and the edge table name the same targets: a
    uniprot accession is in the target table exactly when an edge refers
    to it. *)
Theorem target_nodes_match_edges (a : args) (db : database) (out : outputs)
    (u : option string) :
  main a db = Some out →
  u ∈ map fst (out_targets out) ↔ u ∈ map uniprot (out_edges out).
Proof.
  unfold main. destruct (dm_td_join db) as [ptd|]; [|done].
  destruct (dm_md_join db) as [pmd|]; [|done]. intros [= <-]. simpl.
  unfold targets. rewrite map_map.
  change (map (λ x, fst (fillna_target_name x))) with
    (map (fst : option string * option string → option string)).
  by rewrite merge_left_keys, elem_of_drop_duplicates.
Qed.

Lemma target_nodes_match_edges_witness :
  Some "P1" ∈ map fst [(Some "P1", ""); (Some "P1", "")]
  ↔ Some "P1" ∈ map uniprot
                 [{| chembl_id := Some "CHEMBL25"; uniprot := Some "P1";
                     mechanism := Some "Cyclooxygenase inhibitor";
                     action_type := Some "INHIBITOR" |}].
Proof.
  apply (target_nodes_match_edges
           {| phase := Phase4; fill_synonyms := true |} shared_component_db
           {| out_drugs := [(Some "CHEMBL25", Some "ASPIRIN")];
              out_edges :=
                [{| chembl_id := Some "CHEMBL25"; uniprot := Some "P1";
                    mechanism := Some "Cyclooxygenase inhibitor";
                    action_type := Some "INHIBITOR" |}];
              out_targets := [(Some "P1", ""); (Some "P1", "")] |}).
  vm_compute. reflexivity.
Defined.

(** Every edge written starts at a written drug node and has both ends
    filled in: its chembl_id is the chembl_id of a row of the drug node
    table, and neither its chembl_id nor its uniprot is null. *)
Theorem edges_link_written_drugs (a : args) (db : database) (out : outputs)
    (row : edge_row) :
  main a db = Some out → row ∈ out_edges out →
  chembl_id row ∈ map fst (out_drugs out)
  ∧ chembl_id row ≠ None ∧ uniprot row ≠ None.
Proof.
  unfold main. destruct (dm_td_join db) as [ptd|]; [|done].
  destruct (dm_md_join db) as [pmd|]; [|done]. intros [= <-]. simpl.
  rewrite elem_of_drop_duplicates, elem_of_q_edges.
  intros (dm & md & td & tc & cs & H).
  destruct H as (_&Hmd&_&_&_&_&_&_&_&Hc&Hacc&Hw&->). simpl.
  split; [|split].
  - destruct (joined_syn a db md) as [|syn l] eqn:Hj;
      [by destruct (joined_syn_nonempty a db md)|].
    apply list_elem_of_In, in_map_iff.
    exists (md_chembl_id md, name_expr (not_null (tmp_syn a db)) md syn).
    split; [done|]. apply list_elem_of_In. unfold drugs.
    rewrite elem_of_drop_duplicates, elem_of_q_drugs. exists md, syn.
    rewrite Hj, Hc, Hw. repeat split; [done | left].
  - by destruct (md_chembl_id md).
  - by destruct (cs_accession cs).
Qed.

Lemma edges_link_written_drugs_witness :
  Some "CHEMBL25" ∈ map fst [(Some "CHEMBL25", Some "ASPIRIN")]
  ∧ Some "CHEMBL25" ≠ None ∧ Some "P1" ≠ None.
Proof.
  apply (edges_link_written_drugs
           {| phase := Phase4; fill_synonyms := true |} shared_component_db
           {| out_drugs := [(Some "CHEMBL25", Some "ASPIRIN")];
              out_edges :=
                [{| chembl_id := Some "CHEMBL25"; uniprot := Some "P1";
                    mechanism := Some "Cyclooxygenase inhibitor";
                    action_type := Some "INHIBITOR" |}];
              out_targets := [(Some "P1", ""); (Some "P1", "")] |}
           {| chembl_id := Some "CHEMBL25"; uniprot := Some "P1";
              mechanism := Some "Cyclooxygenase inhibitor";
              action_type := Some "INHIBITOR" |}).
  - vm_compute. reflexivity.
  - left.
Defined.

Lemma length_flat_map_le {A B : Type} (f : A → list B) (l : list A) :
  (∀ x, length (f x) ≤ 1)%nat → (length (flat_map f l) ≤ length l)%nat.
Proof.
  intros Hf. induction l as [|x l IH]; simpl; [done|].
  rewrite length_app. pose proof (Hf x). lia.
Qed.

(** The synonym join never multiplies a molecule: when the helper table
    holds the synonym keys exactly (no synonym row without a molregno, or
    every molregno within the 53 bits of a float64), each row of
    molecule_dictionary gives at most one row of the drug query, so the
    drug node table has at most as many rows as molecule_dictionary. *)
Theorem synonym_join_does_not_fan_out (a : args) (db : database) :
  synonym_keys_exact db →
  (length (q_drugs a db) ≤ length (molecule_dictionary db))%nat
  ∧ (length (drugs a db) ≤ length (molecule_dictionary db))%nat.
Proof.
  intros Hk.
  assert (length (q_drugs a db) ≤ length (molecule_dictionary db))%nat as H.
  { unfold q_drugs. apply length_flat_map_le. intros md.
    rewrite (joined_syn_candidate a db md Hk). simpl. rewrite app_nil_r.
    destruct (_ && _); simpl; lia. }
  split; [done|]. unfold drugs.
  pose proof (length_drop_duplicates (q_drugs a db)). lia.
Qed.

Lemma synonym_join_does_not_fan_out_witness :
  (length (q_drugs {| phase := Phase4; fill_synonyms := true |} aspirin_db)
   ≤ 1)%nat
  ∧ (length (drugs {| phase := Phase4; fill_synonyms := true |} aspirin_db)
     ≤ 1)%nat.
Proof.
  apply (synonym_join_does_not_fan_out
           {| phase := Phase4; fill_synonyms := true |} aspirin_db).
  left. intros r Hr. apply list_elem_of_In in Hr. simpl in Hr.
  destruct Hr as [<- | [<- | []]]; done.
Defined.

Lemma elem_of_q_target_names (db : database)
    (row : option string * option string) :
  row ∈ q_target_names db
  ↔ ∃ td tc cs,
      td ∈ target_dictionary db ∧ tc ∈ target_components db
      ∧ cs ∈ component_sequences db
      ∧ sql_eq (tc_tid tc) (td_tid td) = true
      ∧ sql_eq (cs_component_id cs) (tc_component_id tc) = true
      ∧ row = (cs_accession cs, td_pref_name td).
Proof.
  unfold q_target_names.
  rewrite elem_of_drop_duplicates, list_elem_of_In, in_flat_map. split.
  - intros (td & Htd & H). apply in_flat_map in H as (tc & Htc & H).
    destruct (sql_eq (tc_tid tc) (td_tid td)) eqn:E1; [|done].
    apply in_flat_map in H as (cs & Hcs & H).
    destruct (sql_eq (cs_component_id cs) (tc_component_id tc)) eqn:E2;
      [|done].
    destruct H as [<- | []]. exists td, tc, cs.
    by rewrite !list_elem_of_In.
  - intros (td & tc & cs & Htd & Htc & Hcs & E1 & E2 & ->).
    rewrite !list_elem_of_In in *.
    exists td. split; [done|]. apply in_flat_map. exists tc. split; [done|].
    rewrite E1. apply in_flat_map. exists cs. split; [done|].
    rewrite E2. by left.
Qed.

(** The name of a target node is never invented: it is the empty text, or
    the preferred name of a target of target_dictionary one of whose
    components has the node's accession. *)
Theorem target_names_come_from_dictionary (a : args) (db : database)
    (out : outputs) (u : option string) (name : string) :
  main a db = Some out → (u, name) ∈ out_targets out →
  name = ""
  ∨ ∃ td tc cs,
      td ∈ target_dictionary db ∧ tc ∈ target_components db
      ∧ cs ∈ component_sequences db
      ∧ sql_eq (tc_tid tc) (td_tid td) = true
      ∧ sql_eq (cs_component_id cs) (tc_component_id tc) = true
      ∧ cs_accession cs = u ∧ td_pref_name td = Some name.
Proof.
  unfold main. destruct (dm_td_join db) as [ptd|]; [|done].
  destruct (dm_md_join db) as [pmd|]; [|done]. intros [= <-]. simpl.
  unfold targets, merge_left.
  rewrite list_elem_of_In, in_map_iff. intros ([u' n] & [= -> <-] & Hin).
  apply in_flat_map in Hin as (k & _ & Hin).
  destruct n as [n|]; [|by left]. right.
  destruct (filter (λ r, fst r = k) (q_target_names db)) as [|r rs] eqn:Hf.
  { by destruct Hin as [[=] | []]. }
  rewrite <- Hf in Hin.
  apply list_elem_of_In, list_elem_of_filter in Hin as [_ Hin].
  apply elem_of_q_target_names in Hin
    as (td & tc & cs & Htd & Htc & Hcs & E1 & E2 & [= -> Hn]).
  exists td, tc, cs. auto 10.
Qed.

Lemma target_names_come_from_dictionary_witness :
  "" = ""
  ∨ ∃ td tc cs,
      td ∈ target_dictionary shared_component_db
      ∧ tc ∈ target_components shared_component_db
      ∧ cs ∈ component_sequences shared_component_db
      ∧ sql_eq (tc_tid tc) (td_tid td) = true
      ∧ sql_eq (cs_component_id cs) (tc_component_id tc) = true
      ∧ cs_accession cs = Some "P1" ∧ td_pref_name td = Some "".
Proof.
  apply (target_names_come_from_dictionary
           {| phase := Phase4; fill_synonyms := true |} shared_component_db
           {| out_drugs := [(Some "CHEMBL25", Some "ASPIRIN")];
              out_edges :=
                [{| chembl_id := Some "CHEMBL25"; uniprot := Some "P1";
                    mechanism := Some "Cyclooxygenase inhibitor";
                    action_type := Some "INHIBITOR" |}];
              out_targets := [(Some "P1", ""); (Some "P1", "")] |}).
  - vm_compute. reflexivity.
  - left.
Defined.

End ChemblTableFacts.

(** ** The ChEMBL to DrugBank join as a whole
       (map_chembl_to_drugbank_unichem_dump.py) *)
Section ChemblDrugbankJoinFacts.
Import Py ChemblDrugbank.
Local Open Scope list_scope.

Lemma elem_of_drop_duplicates_on {A K : Type} `{EqDecision A} `{EqDecision K}
    (key : A → K) (l : list A) (x : A) :
  x ∈ drop_duplicates_on key l → x ∈ l.
Proof.
  induction l as [|y l IH]; simpl; [done|].
  rewrite !elem_of_cons, list_elem_of_filter. tauto.
Qed.

Lemma NoDup_keys_drop_duplicates_on {A K : Type} `{EqDecision A}
    `{EqDecision K} (key : A → K) (l : list A) :
  NoDup (map key (drop_duplicates_on key l)).
Proof.
  induction l as [|y l IH]; simpl; [constructor|]. constructor.
  - rewrite list_elem_of_In, in_map_iff. intros (z & Hz & Hin).
    apply list_elem_of_In, list_elem_of_filter in Hin as [Hne _]. done.
  - clear -IH. induction (drop_duplicates_on key l) as [|z l' IHl]; [done|].
    rewrite filter_cons. simpl in IH. apply NoDup_cons in IH as [Hz Hl'].
    destruct (decide (key z ≠ key y)); [|by apply IHl].
    simpl. constructor; [|by apply IHl].
    rewrite list_elem_of_In, in_map_iff. intros (w & Hw & Hin).
    apply Hz. rewrite <- Hw. apply list_elem_of_In, in_map.
    apply list_elem_of_In in Hin. apply list_elem_of_In.
    by apply list_elem_of_filter in Hin as [_ ?].
Qed.

Lemma elem_of_merge_inner (df_drugs : list (string * cell))
    (df_map : list (string * string)) (r : merged_row) :
  r ∈ merge_inner df_drugs df_map
  ↔ (m_chembl_id r, m_name r) ∈ df_drugs
    ∧ (m_chembl_id r, m_drugbank_id r) ∈ df_map.
Proof.
  unfold merge_inner. rewrite list_elem_of_In, in_flat_map. split.
  - intros ([c n] & Hd & Hin). apply in_flat_map in Hin as ([c' d] & Hp & Hin).
    simpl in Hin. destruct (bool_decide_reflect (c' = c)) as [->|]; [|done].
    destruct Hin as [<- | []]. simpl. by rewrite !list_elem_of_In.
  - intros [Hd Hp]. exists (m_chembl_id r, m_name r).
    split; [by apply list_elem_of_In|]. apply in_flat_map.
    exists (m_chembl_id r, m_drugbank_id r).
    split; [by apply list_elem_of_In|]. simpl.
    rewrite bool_decide_eq_true_2 by done. left. by destruct r.
Qed.

Lemma merged_pairs (df_drugs : list (string * cell))
    (df_map : list (string * string)) (c d : string) :
  (c, d) ∈ map (λ r, (m_chembl_id r, m_drugbank_id r)) (merged df_drugs df_map)
  ↔ c ∈ map fst df_drugs ∧ (c, d) ∈ df_map.
Proof.
  unfold merged. rewrite drop_duplicates_on_keys.
  rewrite list_elem_of_In, in_map_iff. split.
  - intros (r & [= <- <-] & Hr).
    apply list_elem_of_In, elem_of_merge_inner in Hr as [Hd Hp].
    split; [|done]. apply list_elem_of_In, in_map_iff.
    exists (m_chembl_id r, m_name r). split; [done|]. by apply list_elem_of_In.
  - intros [Hc Hp]. apply list_elem_of_In, in_map_iff in Hc as ([c' n] & <- & Hd).
    exists {| m_chembl_id := c'; m_name := n; m_drugbank_id := d |}.
    split; [done|]. apply list_elem_of_In, elem_of_merge_inner. simpl.
    split; [by apply list_elem_of_In | done].
Qed.

Lemma pair_of_merged_row (l : list merged_row) (r : merged_row) :
  In r l →
  (m_chembl_id r, m_drugbank_id r)
  ∈ map (λ r, (m_chembl_id r, m_drugbank_id r)) l.
Proof.
  intros Hr. apply list_elem_of_In.
  by apply (in_map (λ r, (m_chembl_id r, m_drugbank_id r))).
Qed.

(** The mapping written is the UniChem table cut down to the seed ids:
    a pair (chembl_id, drugbank_id) is in it exactly when the cleaned
    UniChem table has the pair and the chembl_id is a seed id, and no pair
    is written twice. *)
Theorem resolved_pairs_exact (drugs_csv : list drug_row)
    (unichem : unichem_file) (resolved : list merged_row)
    (residual : list string) (df_map : list (string * string)) :
  main drugs_csv unichem = Some (resolved, residual) →
  load_map unichem = Some df_map →
  (∀ c d,
     (c, d) ∈ map (λ r, (m_chembl_id r, m_drugbank_id r)) resolved
     ↔ c ∈ all_ids (load_drugs drugs_csv) ∧ (c, d) ∈ df_map)
  ∧ NoDup (map (λ r, (m_chembl_id r, m_drugbank_id r)) resolved).
Proof.
  unfold main. intros Hmain Hmap. rewrite Hmap in Hmain.
  injection Hmain as <- <-. split.
  - intros c d. unfold all_ids. by rewrite merged_pairs, elem_of_list_to_set.
  - apply NoDup_keys_drop_duplicates_on.
Qed.

Lemma resolved_pairs_exact_witness :
  (∀ c d,
     (c, d) ∈ map (λ r, (m_chembl_id r, m_drugbank_id r))
                [{| m_chembl_id := "CHEMBL25"; m_name := CStr "ASPIRIN";
                    m_drugbank_id := "DB00945" |}]
     ↔ c ∈ all_ids (load_drugs two_drugs)
       ∧ (c, d) ∈ [("CHEMBL25", "DB00945")])
  ∧ NoDup (map (λ r, (m_chembl_id r, m_drugbank_id r))
             [{| m_chembl_id := "CHEMBL25"; m_name := CStr "ASPIRIN";
                 m_drugbank_id := "DB00945" |}]).
Proof.
  apply (resolved_pairs_exact two_drugs one_mapping _ ["CHEMBL1"]);
    vm_compute; reflexivity.
Defined.

(** Every seed id is accounted for: it is in the left column of the
    mapping written or in the unmapped list, and every id of either
    output is a seed id. *)
Theorem seeds_partitioned (drugs_csv : list drug_row)
    (unichem : unichem_file) (resolved : list merged_row)
    (residual : list string) (x : string) :
  main drugs_csv unichem = Some (resolved, residual) →
  x ∈ all_ids (load_drugs drugs_csv)
  ↔ x ∈ map m_chembl_id resolved ∨ x ∈ residual.
Proof.
  unfold main. destruct (load_map unichem) as [df_map|]; [|done].
  intros [= <- <-]. unfold missing_ids, mapped_ids.
  rewrite elem_of_sorted, elem_of_elements, elem_of_difference.
  rewrite elem_of_list_to_set.
  assert (x ∈ map m_chembl_id (merged (load_drugs drugs_csv) df_map)
          → x ∈ all_ids (load_drugs drugs_csv)) as Hsub.
  { rewrite list_elem_of_In, in_map_iff. intros (r & <- & Hr).
    apply pair_of_merged_row, merged_pairs in Hr as [Hp _].
    unfold all_ids. by rewrite elem_of_list_to_set. }
  destruct (decide (x ∈ map m_chembl_id
                          (merged (load_drugs drugs_csv) df_map))); tauto.
Qed.

Lemma seeds_partitioned_witness :
  "CHEMBL1" ∈ all_ids (load_drugs two_drugs)
  ↔ "CHEMBL1" ∈ map m_chembl_id
                  [{| m_chembl_id := "CHEMBL25"; m_name := CStr "ASPIRIN";
                      m_drugbank_id := "DB00945" |}]
    ∨ "CHEMBL1" ∈ ["CHEMBL1"].
Proof.
  apply (seeds_partitioned two_drugs one_mapping).
  vm_compute. reflexivity.
Defined.

(** The unmapped ids are written in ascending order of their text. *)
Theorem missing_ids_ascending (drugs_csv : list drug_row)
    (unichem : unichem_file) (resolved : list merged_row)
    (residual : list string) :
  main drugs_csv unichem = Some (resolved, residual) →
  StronglySorted String.le residual.
Proof.
  unfold main. destruct (load_map unichem) as [df_map|]; [|done].
  intros [= <- <-]. unfold missing_ids, sorted.
  apply StronglySorted_merge_sort; apply _.
Qed.

Lemma missing_ids_ascending_witness : StronglySorted String.le ["CHEMBL1"].
Proof.
  apply (missing_ids_ascending two_drugs one_mapping
           [{| m_chembl_id := "CHEMBL25"; m_name := CStr "ASPIRIN";
               m_drugbank_id := "DB00945" |}]).
  vm_compute. reflexivity.
Defined.

(** [main] raises its ValueError exactly when the UniChem table lacks the
    chembl_id or the drugbank_id column, whatever the drug file holds. *)
Theorem main_fails_iff_column_missing (drugs_csv : list drug_row)
    (unichem : unichem_file) :
  main drugs_csv unichem = None
  ↔ ¬ ("chembl_id" ∈ um_columns unichem ∧ "drugbank_id" ∈ um_columns unichem).
Proof.
  unfold main, load_map.
  destruct (bool_decide_reflect ("chembl_id" ∈ um_columns unichem));
    destruct (bool_decide_reflect ("drugbank_id" ∈ um_columns unichem));
    simpl; split; first [discriminate | tauto].
Qed.
End ChemblDrugbankJoinFacts.

(** ** Parsing and joining STITCH ids as a whole
       (map_sider_stitch_to_chembl_via_pubchem.py) *)
Section SiderChemblJoinFacts.
Import Py SiderChembl.
Local Open Scope list_scope.
Local Open Scope Z_scope.

Lemma lstrip_head (s : string) (c : ascii) (t : string) :
  lstrip s = String c t → isspace c = false.
Proof.
  induction s as [|a s IH]; simpl; [done|].
  destruct (isspace a) eqn:Ha; [done|]. by intros [= <- _].
Qed.

Lemma rstrip_idemp (s : string) : rstrip (rstrip s) = rstrip s.
Proof.
  induction s as [|a s IH]; [done|]. cbn [rstrip].
  destruct (rstrip s) as [|b r] eqn:Hr.
  - destruct (isspace a) eqn:Ha; [done|]. cbn [rstrip]. by rewrite Ha.
  - cbn [rstrip] in *. by rewrite IH.
Qed.

Lemma rstrip_keeps_head (c : ascii) (t : string) :
  isspace c = false → ∃ t', rstrip (String c t) = String c t'.
Proof.
  intros Hc. cbn [rstrip]. destruct (rstrip t); rewrite ?Hc; eauto.
Qed.

Lemma strip_idemp (s : string) : strip (strip s) = strip s.
Proof.
  unfold strip. destruct (lstrip s) as [|c t] eqn:Hl; [done|].
  destruct (rstrip_keeps_head c t (lstrip_head s c t Hl)) as [t' Ht].
  assert (lstrip (rstrip (String c t)) = rstrip (String c t)) as ->.
  { rewrite Ht. simpl. by rewrite (lstrip_head s c t Hl). }
  apply rstrip_idemp.
Qed.

(** The id parsed does not depend on the whitespace around the text, so
    stripping the column first, as [main] does, changes nothing; and the
    number returned is never negative. *)
Theorem extract_pubchem_cid_outer_space (s : string) :
  extract_pubchem_cid (CStr (strip s)) = extract_pubchem_cid (CStr s)
  ∧ ∀ n, extract_pubchem_cid (CStr s) = Some n → 0 ≤ n.
Proof.
  split; [unfold extract_pubchem_cid; by rewrite strip_idemp|].
  intros n. unfold extract_pubchem_cid.
  destruct (re_match (strip s)) as [g|] eqn:Hm; [|done]. intros [= <-].
  apply re_match_sound in Hm as (ds & _ & _ & Hd & ->).
  apply int_of_digits_acc_nonneg; [done | by apply all_digits_Forall].
Qed.

Lemma extract_pubchem_cid_outer_space_witness : 0 ≤ 42.
Proof.
  apply (proj2 (extract_pubchem_cid_outer_space " CID0042 ") 42).
  reflexivity.
Defined.

Lemma int_of_digits_uint_acc (d : Decimal.uint) (acc : positive) :
  fold_left (λ acc c, 10 * acc + (Z.of_N (N_of_ascii c) - 48))
            (list_ascii_of_string (NilEmpty.string_of_uint d)) (Z.pos acc)
  = Z.pos (Pos.of_uint_acc d acc).
Proof.
  revert acc. induction d as [|d IH|d IH|d IH|d IH|d IH|d IH|d IH|d IH|d IH|d IH];
    intros acc; simpl; [done|..];
    (etrans; [|apply IH]); f_equal; lia.
Qed.

Lemma int_of_digits_uint (d : Decimal.uint) :
  int_of_digits (NilEmpty.string_of_uint d) = Z.of_N (Pos.of_uint d).
Proof.
  unfold int_of_digits.
  induction d as [|d IH|d IH|d IH|d IH|d IH|d IH|d IH|d IH|d IH|d IH];
    simpl; [done | exact IH |..];
    match goal with
    | |- fold_left _ _ ?a = Z.pos (Pos.of_uint_acc d ?k) =>
        change a with (Z.pos k); apply int_of_digits_uint_acc
    end.
Qed.

Lemma all_digits_uint (d : Decimal.uint) :
  all_digits (NilEmpty.string_of_uint d) = true.
Proof. induction d; simpl; done. Qed.

(** The text [str(n)] of a number that is not negative: digits only, not
    empty, spelling [n]. *)
Lemma str_of_Z_digits (n : Z) :
  0 ≤ n →
  all_digits (str_of_Z n) = true ∧ str_of_Z n ≠ ""
  ∧ int_of_digits (str_of_Z n) = n.
Proof.
  intros Hn. unfold str_of_Z. destruct n as [|p|p]; [done| |lia].
  simpl. pose proof (DecimalPos.Unsigned.to_uint_nonnil p) as Hnil.
  assert (NilZero.string_of_uint (Pos.to_uint p)
          = NilEmpty.string_of_uint (Pos.to_uint p)) as ->.
  { unfold NilZero.string_of_uint. by destruct (Pos.to_uint p). }
  split; [apply all_digits_uint|]. split.
  - by destruct (Pos.to_uint p).
  - rewrite int_of_digits_uint, DecimalPos.Unsigned.of_to. done.
Qed.

Lemma all_digits_app (s t : string) :
  all_digits (s +:+ t) = all_digits s && all_digits t.
Proof.
  induction s as [|c s IH]; simpl; [done|]. by rewrite IH, andb_assoc.
Qed.

Lemma zeros_digits (k : nat) (s : string) :
  all_digits (zeros k) = true
  ∧ int_of_digits (zeros k +:+ s) = int_of_digits s.
Proof.
  induction k as [|k [IH1 IH2]]; [done|]. simpl. split; [done|].
  by rewrite <- IH2.
Qed.

Lemma isspace_digit (c : ascii) : is_digit c = true → isspace c = false.
Proof.
  unfold is_digit, isspace. intros [H1 H2]%andb_prop.
  apply N.leb_le in H1, H2.
  apply orb_false_intro; apply andb_false_iff; right; apply N.leb_gt; lia.
Qed.

Lemma rstrip_digits (s : string) : all_digits s = true → rstrip s = s.
Proof.
  induction s as [|c s IH]; [done|]. simpl.
  intros [Hc Hs]%andb_prop. rewrite (IH Hs).
  destruct s; [by rewrite (isspace_digit c Hc) | done].
Qed.

(** Writing a CID as a STITCH id and parsing it back gives the CID: for
    every number n that is not negative and every zero padding, the text
    CID, the zeros, then n in decimal parses to n. *)
Theorem extract_pubchem_cid_round_trip (n : Z) (k : nat) :
  0 ≤ n →
  extract_pubchem_cid (CStr ("CID" +:+ zeros k +:+ str_of_Z n)) = Some n.
Proof.
  intros Hn. destruct (str_of_Z_digits n Hn) as (Hd & Hne & Hv).
  destruct (zeros_digits k (str_of_Z n)) as [Hz Hzv].
  assert (all_digits (zeros k +:+ str_of_Z n) = true) as Hall
    by (by rewrite all_digits_app, Hz, Hd).
  assert (zeros k +:+ str_of_Z n ≠ "") as Hne'.
  { destruct k; [done|]. simpl. discriminate. }
  assert (strip ("CID" +:+ zeros k +:+ str_of_Z n)
          = "CID" +:+ zeros k +:+ str_of_Z n) as Hstrip.
  { unfold strip. change (lstrip ("CID" +:+ zeros k +:+ str_of_Z n))
      with ("CID" +:+ zeros k +:+ str_of_Z n).
    change ("CID" +:+ zeros k +:+ str_of_Z n)
      with (String "C" (String "I" (String "D" (zeros k +:+ str_of_Z n)))).
    cbn [rstrip]. rewrite (rstrip_digits _ Hall).
    by destruct (zeros k +:+ str_of_Z n). }
  unfold extract_pubchem_cid. rewrite Hstrip.
  destruct (re_match_complete _ Hne' Hall) as (g & Hg & Hgv).
  change ("CID" +:+ zeros k +:+ str_of_Z n)
    with ("CID" +:+ (zeros k +:+ str_of_Z n)).
  rewrite Hg, Hgv, Hzv, Hv. done.
Qed.

Lemma extract_pubchem_cid_round_trip_witness :
  extract_pubchem_cid (CStr ("CID" +:+ zeros 4 +:+ str_of_Z 10917))
  = Some 10917.
Proof. apply extract_pubchem_cid_round_trip. lia. Defined.
Lemma elem_of_map_full (edges : list cid_row) (uc : list (Z * string))
    (row : map_row) :
  row ∈ map_full edges uc
  ↔ ∃ e, e ∈ edges
         ∧ (c_pubchem_cid e, mp_chembl_id row) ∈ uc
         ∧ row = {| mp_stitch_id := c_stitch_id e;
                    mp_pubchem_cid := c_pubchem_cid e;
                    mp_chembl_id := mp_chembl_id row;
                    mp_umls_cui := c_umls_cui e |}.
Proof.
  unfold map_full.
  rewrite elem_of_drop_duplicates, list_elem_of_In, in_flat_map. split.
  - intros (e & He & Hrow). apply in_flat_map in Hrow as ([cid c] & Hu & Hrow).
    simpl in Hrow.
    destruct (bool_decide_reflect (cid = c_pubchem_cid e)) as [->|]; [|done].
    destruct Hrow as [<- | []]. simpl. exists e.
    by rewrite !list_elem_of_In.
  - intros (e & He & Hu & Hrow). exists e. rewrite <- list_elem_of_In.
    split; [done|]. apply in_flat_map.
    exists (c_pubchem_cid e, mp_chembl_id row).
    split; [by apply list_elem_of_In|]. simpl.
    rewrite bool_decide_eq_true_2 by done. left. simpl. by symmetry.
Qed.

(** The full mapping, when it is written, is the join of the parsed SIDER
    rows with the inverted UniChem table on the stored CID: a row
    (stitch_id, pubchem_cid, chembl_id, umls_cui) is in it exactly when
    some SIDER row has that side effect and a stripped id that parses to
    a CID stored as that pubchem_cid (the CID itself in an integer column,
    its nearest float64 in a column that holds an unparsable id), and the
    UniChem table maps that pubchem_cid to that chembl_id. *)
Theorem map_full_is_the_join (f : list sider_row) (uc : list (Z * string))
    (out : list map_row * option (list map_row)) (row : map_row) :
  main f uc None = Some out →
  row ∈ fst out
  ↔ ∃ r cid, r ∈ f
             ∧ extract_pubchem_cid (CStr (strip (astype_str (stitch_id r))))
               = Some cid
             ∧ mp_pubchem_cid row = stored_cid f cid
             ∧ (mp_pubchem_cid row, mp_chembl_id row) ∈ uc
             ∧ mp_stitch_id row = strip (astype_str (stitch_id r))
             ∧ mp_umls_cui row = umls_cui r.
Proof.
  unfold main. destruct (load_edges f) as [edges|] eqn:Hload; [|done].
  intros [= <-]. simpl. rewrite elem_of_map_full. split.
  - intros (e & He & Hu & ->). simpl.
    apply (elem_of_load_edges f edges e Hload) in He
      as (r & cid & Hr & Hc & ->).
    exists r, cid. done.
  - intros (r & cid & Hr & Hc & Hv & Hu & Hs & Hm).
    exists (edge_of r (stored_cid f cid)). split; [|split].
    + apply (elem_of_load_edges f edges _ Hload). by exists r, cid.
    + simpl. by rewrite <- Hv.
    + destruct row. simpl in *. by subst.
Qed.

Lemma map_full_is_the_join_witness :
  {| mp_stitch_id := "CID000010917"; mp_pubchem_cid := 10917;
     mp_chembl_id := "CHEMBL25"; mp_umls_cui := CStr "C0000737" |}
  ∈ [{| mp_stitch_id := "CID000010917"; mp_pubchem_cid := 10917;
        mp_chembl_id := "CHEMBL25"; mp_umls_cui := CStr "C0000737" |}]
  ↔ ∃ r cid, r ∈ [unparsable_row; parsable_row]
             ∧ extract_pubchem_cid (CStr (strip (astype_str (stitch_id r))))
               = Some cid
             ∧ 10917 = stored_cid [unparsable_row; parsable_row] cid
             ∧ (10917, "CHEMBL25") ∈ [(10917, "CHEMBL25")]
             ∧ "CID000010917" = strip (astype_str (stitch_id r))
             ∧ CStr "C0000737" = umls_cui r.
Proof.
  apply (map_full_is_the_join
           [unparsable_row; parsable_row] [(10917, "CHEMBL25")]
           ([{| mp_stitch_id := "CID000010917"; mp_pubchem_cid := 10917;
                mp_chembl_id := "CHEMBL25";
                mp_umls_cui := CStr "C0000737" |}], None)
           {| mp_stitch_id := "CID000010917"; mp_pubchem_cid := 10917;
              mp_chembl_id := "CHEMBL25"; mp_umls_cui := CStr "C0000737" |}).
  vm_compute. reflexivity.
Defined.

(** The phase-4 mapping is written only when the phase-4 drug file exists,
    and the full mapping is the same either way, as is whether step 1
    succeeds; when written, the phase-4 mapping holds exactly the rows of
    the full mapping whose chembl_id is the stripped chembl_id of a row of
    that file, each once. *)
Theorem phase4_mapping_is_filtered_full (f : list sider_row)
    (uc : list (Z * string)) (p4 : list p4_row) :
  (main f uc (Some p4) = None ↔ main f uc None = None)
  ∧ ∀ out, main f uc None = Some out →
      snd out = None
      ∧ ∃ out4 mp4, main f uc (Some p4) = Some out4
          ∧ fst out4 = fst out
          ∧ snd out4 = Some mp4
          ∧ NoDup mp4
          ∧ ∀ row, row ∈ mp4
              ↔ row ∈ fst out
                ∧ ∃ d, d ∈ p4
                       ∧ mp_chembl_id row
                         = strip (astype_str (p4_chembl_id d)).
Proof.
  unfold main. destruct (load_edges f) as [edges|]; [|done].
  split; [done|]. intros out [= <-]. split; [done|].
  eexists _, _. split; [reflexivity|]. split; [reflexivity|].
  split; [reflexivity|]. simpl. unfold map_phase4. split.
  - apply NoDup_filter, NoDup_drop_duplicates.
  - intros row. rewrite list_elem_of_filter. unfold p4_ids.
    rewrite elem_of_list_to_set, list_elem_of_In, in_map_iff.
    split.
    + intros [(d & <- & Hd) Hrow]. split; [done|]. exists d.
      by rewrite list_elem_of_In.
    + intros [Hrow (d & Hd & ->)]. split; [|done]. exists d.
      by rewrite <- list_elem_of_In.
Qed.

Lemma phase4_mapping_is_filtered_full_witness :
  ∃ out4 mp4,
    main [parsable_row] [(10917, "CHEMBL25")]
         (Some [{| p4_chembl_id := CStr " CHEMBL25";
                   p4_name := CStr "ASPIRIN" |}])
      = Some out4
    ∧ fst out4
      = [{| mp_stitch_id := "CID000010917"; mp_pubchem_cid := 10917;
            mp_chembl_id := "CHEMBL25"; mp_umls_cui := CStr "C0000737" |}]
    ∧ snd out4 = Some mp4
    ∧ NoDup mp4
    ∧ ∀ row, row ∈ mp4
        ↔ row ∈ [{| mp_stitch_id := "CID000010917"; mp_pubchem_cid := 10917;
                    mp_chembl_id := "CHEMBL25";
                    mp_umls_cui := CStr "C0000737" |}]
          ∧ ∃ d, d ∈ [{| p4_chembl_id := CStr " CHEMBL25";
                         p4_name := CStr "ASPIRIN" |}]
                 ∧ mp_chembl_id row = strip (astype_str (p4_chembl_id d)).
Proof.
  apply (proj2 (proj2 (phase4_mapping_is_filtered_full
                         [parsable_row] [(10917, "CHEMBL25")]
                         [{| p4_chembl_id := CStr " CHEMBL25";
                             p4_name := CStr "ASPIRIN" |}])
                      ([{| mp_stitch_id := "CID000010917";
                           mp_pubchem_cid := 10917;
                           mp_chembl_id := "CHEMBL25";
                           mp_umls_cui := CStr "C0000737" |}], None)
                      ltac:(vm_compute; reflexivity))).
Defined.

End SiderChemblJoinFacts.

(** ** The UniProt mapping and the SIDER merge as a whole
       (map_uniprot_to_entrez.py, extract_sider.py) *)
Section MappingJoinFacts.
Import Py.
Local Open Scope list_scope.

(** The mapping written holds exactly the GeneID lines of the needed
    targets: a row (uniprot, entrez_id) is written exactly when the dump
    has the three-field line uniprot, GeneID, entrez_id and some row of the
    target table has that uniprot id once stripped; a target row with a
    missing uniprot cell needs nothing. *)
Theorem uniprot_mapping_exact (df : list UniprotEntrez.target_row)
    (rows : list (list string)) (u v : string) :
  (u, v) ∈ UniprotEntrez.main df rows
  ↔ [u; "GeneID"; v] ∈ rows
    ∧ ∃ r s, r ∈ df ∧ UniprotEntrez.t_uniprot r = CStr s ∧ u = strip s.
Proof.
  unfold UniprotEntrez.main.
  rewrite elem_of_drop_duplicates, elem_of_mapping. simpl.
  by rewrite elem_of_target_uniprots.
Qed.

Section SiderMerge.
Context {value : Type} `{EqDecision value}.
Context (to_str : value → string) (nan : value).

Lemma elem_of_sider_edges (all_se : list (@Sider.all_se_row value))
    (e : string * string) :
  e ∈ Sider.edges to_str all_se
  ↔ ∃ r, r ∈ all_se
         ∧ e = (to_str (Sider.se_stitch_id r), to_str (Sider.se_umls_cui r)).
Proof.
  unfold Sider.edges.
  rewrite elem_of_drop_duplicates, list_elem_of_In, in_map_iff.
  split; intros (r & Hr & Hin); exists r.
  - by rewrite list_elem_of_In.
  - by rewrite <- list_elem_of_In.
Qed.

Lemma elem_of_freq_kept (freq : list (@Sider.freq_row value))
    (row : @Sider.edge_freq_row value) :
  row ∈ Sider.freq_kept to_str freq
  ↔ ∃ q, q ∈ freq
         ∧ row = {| Sider.stitch_id := to_str (Sider.fq_stitch_id q);
                    Sider.umls_cui := to_str (Sider.fq_umls_cui q);
                    Sider.frequency_lower := Sider.fq_frequency_lower q;
                    Sider.frequency_upper := Sider.fq_frequency_upper q |}.
Proof.
  unfold Sider.freq_kept.
  rewrite elem_of_drop_duplicates, list_elem_of_In, in_map_iff.
  split; intros (q & Hq & Hin); exists q.
  - by rewrite list_elem_of_In.
  - by rewrite <- list_elem_of_In.
Qed.

Lemma elem_of_edges_freq (edges : list (string * string))
    (fq : list (@Sider.edge_freq_row value))
    (row : @Sider.edge_freq_row value) :
  row ∈ Sider.edges_freq nan edges fq
  ↔ (Sider.stitch_id row, Sider.umls_cui row) ∈ edges
    ∧ (row ∈ fq
       ∨ ((∀ q, q ∈ fq →
             (Sider.stitch_id q, Sider.umls_cui q)
             ≠ (Sider.stitch_id row, Sider.umls_cui row))
          ∧ Sider.frequency_lower row = nan
          ∧ Sider.frequency_upper row = nan)).
Proof.
  unfold Sider.edges_freq. rewrite list_elem_of_In, in_flat_map. split.
  - intros (e & He & Hrow). apply list_elem_of_In in He.
    destruct (filter (λ f, (Sider.stitch_id f, Sider.umls_cui f) = e) fq)
      as [|q qs] eqn:Hf.
    + destruct Hrow as [<- | []]. simpl. split; [by destruct e|].
      right. split; [|done]. intros q Hq Hkey.
      apply (filter_nil_not_elem_of _ _ q Hf); [|done].
      by destruct e.
    + rewrite <- Hf in Hrow.
      apply list_elem_of_In, list_elem_of_filter in Hrow as [<- Hrow]. auto.
  - intros [He Hrow]. exists (Sider.stitch_id row, Sider.umls_cui row).
    split; [by apply list_elem_of_In|].
    destruct (filter (λ f, (Sider.stitch_id f, Sider.umls_cui f)
                           = (Sider.stitch_id row, Sider.umls_cui row)) fq)
      as [|q qs] eqn:Hf.
    + destruct Hrow as [Hrow | (_ & Hl & Hu)].
      * destruct (filter_nil_not_elem_of _ _ row Hf); done.
      * left. destruct row; simpl in *. by subst.
    + rewrite <- Hf. apply list_elem_of_In, list_elem_of_filter.
      destruct Hrow as [Hrow | (Hno & _)]; [done|].
      assert (q ∈ filter (λ f, (Sider.stitch_id f, Sider.umls_cui f)
                               = (Sider.stitch_id row, Sider.umls_cui row)) fq)
        as Hq by (rewrite Hf; left).
      apply list_elem_of_filter in Hq as [Hk Hq]. destruct (Hno q Hq Hk).
Qed.

(** The left merge keeps every drug-side-effect pair and invents none: a
    row is in the edge table exactly when its (stitch_id, umls_cui) pair is
    a pair of the association file and the row is either a kept frequency
    row or, when the frequency file has no row for the pair, the pair with
    both frequencies missing; so every pair of the association file has at
    least one row. *)
Theorem sider_edges_left_merge (all_se : list (@Sider.all_se_row value))
    (freq : list (@Sider.freq_row value)) :
  (∀ row, row ∈ snd (Sider.main to_str nan all_se freq)
     ↔ (Sider.stitch_id row, Sider.umls_cui row) ∈ Sider.edges to_str all_se
       ∧ (row ∈ Sider.freq_kept to_str freq
          ∨ ((∀ q, q ∈ Sider.freq_kept to_str freq →
                (Sider.stitch_id q, Sider.umls_cui q)
                ≠ (Sider.stitch_id row, Sider.umls_cui row))
             ∧ Sider.frequency_lower row = nan
             ∧ Sider.frequency_upper row = nan)))
  ∧ (∀ r, r ∈ all_se →
       ∃ row, row ∈ snd (Sider.main to_str nan all_se freq)
              ∧ Sider.stitch_id row = to_str (Sider.se_stitch_id r)
              ∧ Sider.umls_cui row = to_str (Sider.se_umls_cui r)).
Proof.
  split; [intros row; apply elem_of_edges_freq|].
  intros r Hr. simpl.
  set (e := (to_str (Sider.se_stitch_id r), to_str (Sider.se_umls_cui r))).
  assert (e ∈ Sider.edges to_str all_se) as He
    by (apply elem_of_sider_edges; by exists r).
  destruct (filter (λ f, (Sider.stitch_id f, Sider.umls_cui f) = e)
                   (Sider.freq_kept to_str freq)) as [|q qs] eqn:Hf.
  - exists {| Sider.stitch_id := fst e; Sider.umls_cui := snd e;
              Sider.frequency_lower := nan; Sider.frequency_upper := nan |}.
    split; [|done]. apply elem_of_edges_freq. simpl. split; [done|].
    right. split; [|done]. intros q Hq Hk.
    by apply (filter_nil_not_elem_of _ _ q Hf).
  - assert (q ∈ filter (λ f, (Sider.stitch_id f, Sider.umls_cui f) = e)
                  (Sider.freq_kept to_str freq)) as Hq by (rewrite Hf; left).
    apply list_elem_of_filter in Hq as [Hk Hq]. exists q.
    split; [|by injection Hk]. apply elem_of_edges_freq.
    rewrite Hk. auto.
Qed.
End SiderMerge.
Lemma sider_edges_left_merge_witness :
  ∃ row,
    row ∈ snd (Sider.main astype_str CNaN [Sider.abdominal_pain_row] [])
    ∧ Sider.stitch_id row = "CID100000085"
    ∧ Sider.umls_cui row = "C0000737".
Proof.
  apply (proj2 (sider_edges_left_merge astype_str CNaN
                  [Sider.abdominal_pain_row] [])
               Sider.abdominal_pain_row).
  left.
Defined.
End MappingJoinFacts.
